(** * The Autoregressive distribution

    A shallow embedding of
    [tensorflow_probability/python/distributions/autoregressive.py]
    and the properties of its sampling recurrence, its density delegation,
    its shape queries and its consistency and parameter checks.

    The class is a combinator over a caller-supplied [distribution_fn]; that
    function may read and write state outside the object (variables), so the
    methods are modelled in a state-and-exception monad.  The state carries
    the external world [distribution_fn] acts on, the source of randomness
    used when no seed is given, and a chronological trace of the calls made
    to the collaborators, which is what the statements about "how many
    times" and "with which argument" are about. *)

From Stdlib Require Import ZArith List String Bool Lia.
From ExtLib Require Import Structures.Monad.
Import ListNotations.
Import MonadNotation.
Local Open Scope Z_scope.
Local Open Scope string_scope.
Local Open Scope monad_scope.

Set Implicit Arguments.

(** ** Collaborator types (TensorFlow side) *)

(** [tf.DType]: the element types a distribution can report. *)
Inductive DType : Type :=
| float16 | float32 | float64 | int32 | int64.

(** [reparameterization.ReparameterizationType] and its two instances. *)
Inductive ReparameterizationType : Type :=
| FULLY_REPARAMETERIZED
| NOT_REPARAMETERIZED.

Definition DType_eqb (a b : DType) : bool :=
  match a, b with
  | float16, float16 | float32, float32 | float64, float64
  | int32, int32 | int64, int64 => true
  | _, _ => false
  end.

Definition ReparameterizationType_eqb (a b : ReparameterizationType) : bool :=
  match a, b with
  | FULLY_REPARAMETERIZED, FULLY_REPARAMETERIZED
  | NOT_REPARAMETERIZED, NOT_REPARAMETERIZED => true
  | _, _ => false
  end.

(** What [str.format] prints for a dtype and for a reparameterization type. *)
Definition DType_str (d : DType) : string :=
  match d with
  | float16 => "<dtype: 'float16'>"
  | float32 => "<dtype: 'float32'>"
  | float64 => "<dtype: 'float64'>"
  | int32 => "<dtype: 'int32'>"
  | int64 => "<dtype: 'int64'>"
  end.

Definition ReparameterizationType_str (r : ReparameterizationType) : string :=
  match r with
  | FULLY_REPARAMETERIZED => "<Reparameterization Type: FULLY_REPARAMETERIZED>"
  | NOT_REPARAMETERIZED => "<Reparameterization Type: NOT_REPARAMETERIZED>"
  end.

(** ['... previously {} and now {}'.format(a, b)]: the text before the first
    placeholder, then the two values around [" and now "]. *)
Definition format_previously_now (pre a b : string) : string :=
  pre ++ a ++ " and now " ++ b.

(** [tf.TensorShape]: [None] is the unknown (unranked) shape
    [tf.TensorShape(None)]; a known rank has one entry per dimension, each
    of them known or not. *)
Definition TensorShape : Type := option (list (option Z)).

Definition unknown_shape : TensorShape := None.

Fixpoint dims_product (ds : list (option Z)) : option Z :=
  match ds with
  | [] => Some 1
  | None :: _ => None
  | Some d :: ds' =>
      match dims_product ds' with
      | Some p => Some (d * p)
      | None => None
      end
  end.

(** [tensorshape_util.num_elements]: the element count when the shape is
    fully defined, [None] otherwise. *)
Definition num_elements (s : TensorShape) : option Z :=
  match s with
  | None => None
  | Some ds => dims_product ds
  end.

(** Signed 32-bit wrap-around, the arithmetic of an [int32] tensor. *)
Definition wrap_int32 (z : Z) : Z :=
  (z + 2147483648) mod 4294967296 - 2147483648.

(** [tf.reduce_prod] of an [int32] vector (what [event_shape_tensor()]
    returns). *)
Definition reduce_prod (xs : list Z) : Z :=
  fold_left (fun acc x => wrap_int32 (acc * x)) xs 1.

(** The product of the entries, in unbounded arithmetic. *)
Definition product (xs : list Z) : Z := fold_right Z.mul 1 xs.

(** Python's [range(k)]: empty when [k <= 0]. *)
Definition range (k : Z) : list Z :=
  map Z.of_nat (seq 0 (Z.to_nat k)).

(** A seed token as handed to [sample(seed=...)]. *)
Definition Token : Type := Z.

(** Exceptions the module and its collaborators raise. *)
Inductive Error : Type :=
| ValueError (message : string)
| InvalidArgumentError (message : string)
| UnboundLocalError (variable : string).

Inductive Result (A : Type) : Type :=
| Ok (a : A)
| Raise (e : Error).

Arguments Ok {A} a.
Arguments Raise {A} e.

(** [tf.range(start, limit)], with the default step 1: the integers from
    [start] up to [limit], [limit] excluded, and none when they are equal.
    A [limit] below [start] is refused with an invalid-argument error; of
    TensorFlow's message only the fixed first words are kept. *)
Definition tf_range (start limit : Z) : Result (list Z) :=
  if (limit <? start)%Z then
    Raise (InvalidArgumentError "Requires start <= limit when delta > 0")
  else
    Ok (map (fun i => start + Z.of_nat i) (seq 0 (Z.to_nat (limit - start)))).

(** The values a Python integer can have as a tensor: those of [int64]. *)
Definition fits_int64 (k : Z) : bool :=
  ((-9223372036854775808 <=? k) && (k <? 9223372036854775808))%Z.

Section Model.

(** Sample values are opaque tensors; [World] is whatever state outside the
    object [distribution_fn] reads or writes (variables). *)
Variables Tensor World : Type.

(** The deterministic part of seed derivation: the token [SeedStream] hashes
    out of an explicit seed and a salt. *)
Variable seed_hash : Z -> string -> Token.

(** The [tfd.Distribution]-like instance [distribution_fn] returns.
    [sample]'s first argument is the sample shape: [[n]] for [sample(n)],
    [[]] for [sample()]. *)
Record Distribution : Type := {
  dtype : DType;
  reparameterization_type : ReparameterizationType;
  batch_shape_tensor : list Z;
  event_shape : TensorShape;
  event_shape_tensor : list Z;
  sample : list Z -> Token -> Tensor;
  log_prob : Tensor -> Tensor;
  prob : Tensor -> Tensor
}.

(** [num_steps] after [convert_nonref_to_tensor]: a Python integer or
    constant tensor, whose value [tf.get_static_value] recovers; a tensor
    whose value exists only on execution; or a [tf.Variable] (a ref), read
    on execution.  All three are scalars. *)
Inductive NumSteps : Type :=
| ConstantSteps (k : Z)
| DeferredSteps (value : World -> Z)
| VariableSteps (value : World -> Z).

Definition is_ref (x : NumSteps) : bool :=
  match x with
  | VariableSteps _ => true
  | _ => false
  end.

Definition get_static_value (x : NumSteps) : option Z :=
  match x with
  | ConstantSteps k => Some k
  | _ => None
  end.

Definition value_in (x : NumSteps) (w : World) : Z :=
  match x with
  | ConstantSteps k => k
  | DeferredSteps v | VariableSteps v => v w
  end.

(** ** Trace and state *)

Inductive Event : Type :=
| EvDistributionFn (arg : option Tensor) (ret : Distribution)
| EvSeedStream (seed : option Z) (salt : string) (token : Token)
| EvSample (d : Distribution) (sample_shape : list Z) (seed : Token).

Record State : Type := {
  env : World;
  entropy : nat -> Token;
  trace : list Event
}.

Definition log (e : Event) (st : State) : State :=
  {| env := env st; entropy := entropy st; trace := trace st ++ [e] |}.

Definition M (A : Type) : Type := State -> Result A * State.

Definition M_ret {A} (a : A) : M A := fun st => (Ok a, st).

Definition M_bind {A B} (m : M A) (k : A -> M B) : M B :=
  fun st =>
    match m st with
    | (Ok a, st') => k a st'
    | (Raise e, st') => (Raise e, st')
    end.

#[global] Instance Monad_M : Monad M :=
  {| ret := @M_ret; bind := @M_bind |}.

Definition M_raise {A} (e : Error) : M A := fun st => (Raise e, st).

(** A TensorFlow operation that returns or raises without touching the
    state. *)
Definition M_lift {A} (r : Result A) : M A := fun st => (r, st).

(** Calling the user's function: it acts on the world and returns a
    distribution; the call is recorded with its argument ([None] for the
    call without argument). *)
Definition call_distribution_fn
    (fn : option Tensor -> World -> Distribution * World)
    (arg : option Tensor) : M Distribution :=
  fun st =>
    let (d, w) := fn arg (env st) in
    (Ok d,
     {| env := w; entropy := entropy st;
        trace := trace st ++ [EvDistributionFn arg d] |}).

(** [d.sample(sample_shape, seed=seed)]. *)
Definition call_sample (d : Distribution) (sample_shape : list Z)
    (seed : Token) : M Tensor :=
  fun st =>
    (Ok (sample d sample_shape seed), log (EvSample d sample_shape seed) st).

(** Modelled from the spec: [SeedStream(seed, salt)()] of
    [tensorflow_probability/python/util/seed_stream.py], which is not among
    the sources.  The same seed and salt give the same token; without a
    seed the token is not determined by the arguments, it is taken from the
    state's entropy, which advances. *)
Definition SeedStream (seed : option Z) (salt : string) : M Token :=
  fun st =>
    match seed with
    | Some s =>
        let t := seed_hash s salt in
        (Ok t, log (EvSeedStream seed salt t) st)
    | None =>
        let t := entropy st 0%nat in
        (Ok t,
         {| env := env st;
            entropy := fun i => entropy st (S i);
            trace := trace st ++ [EvSeedStream seed salt t] |})
    end.

(** [tf.convert_to_tensor(num_steps)] evaluated: reads a variable in the
    current world. *)
Definition read_num_steps (x : NumSteps) : M Z :=
  fun st => (Ok (value_in x (env st)), st).

(** [tensor_util.convert_nonref_to_tensor] applied to [num_steps].  The
    function is not among the sources; it leaves [None], tensors and
    variables as they are and makes a tensor of a Python integer, which
    [tf.convert_to_tensor] refuses with a [ValueError] when the integer is
    outside [int64].  ([sample0] is a tensor already, its conversion does
    nothing.) *)
Definition convert_nonref_to_tensor (num_steps : option NumSteps)
    : M (option NumSteps) :=
  match num_steps with
  | Some (ConstantSteps k) =>
      if fits_int64 k then ret num_steps
      else M_raise (ValueError
             "Can't convert Python sequence with out-of-range integer to Tensor.")
  | _ => ret num_steps
  end.

(** Python's [for _ in xs: s = body(s)]. *)
Fixpoint for_in {A B} (xs : list B) (body : A -> M A) (s : A) : M A :=
  match xs with
  | [] => ret s
  | _ :: xs' => s' <- body s ;; for_in xs' body s'
  end.

(** [tf.foldl(fn, elems, initializer)]: a sequential left fold carrying the
    accumulator. *)
Fixpoint tf_foldl {A B} (fn : A -> B -> M A) (elems : list B)
    (initializer : A) : M A :=
  match elems with
  | [] => ret initializer
  | e :: elems' => a <- fn initializer e ;; tf_foldl fn elems' a
  end.

(** ** The class *)

Definition DistributionFn : Type :=
  option Tensor -> World -> Distribution * World.

(** The instance: the three attributes [__init__] sets, and those the base
    class [distribution.Distribution] keeps from the arguments of its
    constructor. *)
Record Autoregressive : Type := {
  _distribution_fn : DistributionFn;
  _sample0 : option Tensor;
  _num_steps : option NumSteps;
  _dtype : DType;
  _reparameterization_type : ReparameterizationType;
  _validate_args : bool;
  _allow_nan_stats : bool;
  _name : string
}.

(** The assertions [_parameter_control_dependencies] collects. *)
Inductive Assertion : Type :=
| assert_rank (x : NumSteps) (rank : Z) (message : string)
| assert_positive (x : NumSteps) (message : string).

Definition _parameter_control_dependencies (self : Autoregressive)
    (is_init : bool) : list Assertion :=
  if negb (_validate_args self) then []
  else
    match _num_steps self with
    | Some num_steps =>
        if negb (Bool.eqb is_init (is_ref num_steps)) then
          [ assert_rank num_steps 0
              "Argument `num_steps` must be a scalar";
            assert_positive num_steps
              "Argument `num_steps` must be positive" ]
        else []
    | None => []
    end.

(** Modelled from the spec: [assert_util.assert_rank] and
    [assert_util.assert_positive], which are not among the sources, as they
    act while the object is built.  A check on a statically known value is
    decided at once and fails with an invalid-argument error; a check on a
    value known only on execution is deferred and cannot fail here.  Every
    [NumSteps] is a scalar, of rank 0. *)
Definition check_assertion (a : Assertion) : M unit :=
  match a with
  | assert_rank _ rank message =>
      if (0 =? rank)%Z then ret tt else M_raise (InvalidArgumentError message)
  | assert_positive x message =>
      match get_static_value x with
      | Some k =>
          if (0 <? k)%Z then ret tt else M_raise (InvalidArgumentError message)
      | None => ret tt
      end
  end.

Fixpoint check_assertions (l : list Assertion) : M unit :=
  match l with
  | [] => ret tt
  | a :: l' => check_assertion a ;; check_assertions l'
  end.

(** Modelled from the spec: the end of the constructor of the base class
    [distribution.Distribution], which is not among the sources: with the
    attributes set, it runs the checks that
    [_parameter_control_dependencies(is_init=True)] collects. *)
Definition Distribution__init__ (self : Autoregressive) : M unit :=
  check_assertions (_parameter_control_dependencies self true).

Definition __init__ (distribution_fn : DistributionFn)
    (sample0 : option Tensor) (num_steps : option NumSteps)
    (validate_args allow_nan_stats : bool) (name : string)
    : M Autoregressive :=
  num_steps <- convert_nonref_to_tensor num_steps ;;
  distribution0 <-
    match sample0 with
    | Some s => call_distribution_fn distribution_fn (Some s)
    | None => call_distribution_fn distribution_fn None
    end ;;
  let self :=
    {| _distribution_fn := distribution_fn;
       _sample0 := sample0;
       _num_steps := num_steps;
       _dtype := dtype distribution0;
       _reparameterization_type := reparameterization_type distribution0;
       _validate_args := validate_args;
       _allow_nan_stats := allow_nan_stats;
       _name := name |} in
  Distribution__init__ self ;;
  ret self.

Definition distribution_fn (self : Autoregressive) : DistributionFn :=
  _distribution_fn self.

Definition sample0 (self : Autoregressive) : option Tensor :=
  _sample0 self.

Definition _get_distribution0 (self : Autoregressive) : M Distribution :=
  ret_ <-
    match _sample0 self with
    | Some s => call_distribution_fn (_distribution_fn self) (Some s)
    | None => call_distribution_fn (_distribution_fn self) None
    end ;;
  if negb (DType_eqb (dtype ret_) (_dtype self)) then
    M_raise (ValueError
      (format_previously_now
         "`distribution_fn` returned distributions with different dtype -- previously "
         (DType_str (_dtype self)) (DType_str (dtype ret_))))
  else if negb (ReparameterizationType_eqb (reparameterization_type ret_)
                  (_reparameterization_type self)) then
    M_raise (ValueError
      (format_previously_now
         "`distribution_fn` returned distributions with different reparameterize_type -- previously "
         (ReparameterizationType_str (_reparameterization_type self))
         (ReparameterizationType_str (reparameterization_type ret_))))
  else ret ret_.

(** The deprecated [distribution0] property. *)
Definition distribution0 (self : Autoregressive) : M Distribution :=
  _get_distribution0 self.

Definition _num_steps_deprecated_behavior (self : Autoregressive)
    : M NumSteps :=
  distribution0 <- _get_distribution0 self ;;
  match num_elements (event_shape distribution0) with
  | Some num_steps_static => ret (ConstantSteps num_steps_static)
  | None =>
      let p := reduce_prod (event_shape_tensor distribution0) in
      ret (DeferredSteps (fun _ => p))
  end.

Definition num_steps (self : Autoregressive) : M NumSteps :=
  match _num_steps self with
  | None => _num_steps_deprecated_behavior self
  | Some x => ret x
  end.

Definition _batch_shape (self : Autoregressive) : M TensorShape :=
  ret unknown_shape.

Definition _batch_shape_tensor (self : Autoregressive) : M (list Z) :=
  d <- _get_distribution0 self ;; ret (batch_shape_tensor d).

Definition _event_shape (self : Autoregressive) : M TensorShape :=
  ret unknown_shape.

Definition _event_shape_tensor (self : Autoregressive) : M (list Z) :=
  d <- _get_distribution0 self ;; ret (event_shape_tensor d).

(** One repetition of the recurrence:
    [self.distribution_fn(samples).sample(seed=seed)]. *)
Definition recurrence_step (self : Autoregressive) (seed : Token)
    (samples : Tensor) : M Tensor :=
  d <- call_distribution_fn (distribution_fn self) (Some samples) ;;
  call_sample d [] seed.

(** [_sample_n].  The two local variables [num_steps] and
    [num_steps_static] are kept as the source has them: [num_steps] is left
    unbound ([None] in the first component) on the path where the event
    shape gives the static count. *)
Definition _sample_n (self : Autoregressive) (n : Z) (seed : option Z)
    : M Tensor :=
  distribution0 <- _get_distribution0 self ;;
  ' (num_steps, num_steps_static) <-
    match _num_steps self with
    | Some x =>
        num_steps <- read_num_steps x ;;
        ret (Some num_steps, get_static_value x)
    | None =>
        let num_steps_static := num_elements (event_shape distribution0) in
        match num_steps_static with
        | None =>
            ret (Some (reduce_prod (event_shape_tensor distribution0)),
                 num_steps_static)
        | Some _ => ret (None, num_steps_static)
        end
    end ;;
  seed <- SeedStream seed "Autoregressive" ;;
  samples <- call_sample distribution0 [n] seed ;;
  match num_steps_static with
  | Some k =>
      for_in (range k) (recurrence_step self seed) samples
  | None =>
      match num_steps with
      | Some num_steps =>
          elems <- M_lift (tf_range 0 num_steps) ;;
          tf_foldl (fun s (_ : Z) => recurrence_step self seed s)
            elems samples
      | None => M_raise (UnboundLocalError "num_steps")
      end
  end.

Definition _log_prob (self : Autoregressive) (value : Tensor) : M Tensor :=
  d <- call_distribution_fn (distribution_fn self) (Some value) ;;
  ret (log_prob d value).

Definition _prob (self : Autoregressive) (value : Tensor) : M Tensor :=
  d <- call_distribution_fn (distribution_fn self) (Some value) ;;
  ret (prob d value).

(** ** Reading the trace *)

(** The calls of [distribution_fn], each with its argument and the
    distribution it returned, in order. *)
Fixpoint fn_calls (tr : list Event) : list (option Tensor * Distribution) :=
  match tr with
  | [] => []
  | EvDistributionFn arg d :: tr' => (arg, d) :: fn_calls tr'
  | _ :: tr' => fn_calls tr'
  end.

(** The seed derivations, in order. *)
Fixpoint seed_calls (tr : list Event) : list (option Z * string * Token) :=
  match tr with
  | [] => []
  | EvSeedStream seed salt t :: tr' => (seed, salt, t) :: seed_calls tr'
  | _ :: tr' => seed_calls tr'
  end.

(** The [sample] calls, in order. *)
Fixpoint sample_calls (tr : list Event)
    : list (Distribution * list Z * Token) :=
  match tr with
  | [] => []
  | EvSample d shape t :: tr' => (d, shape, t) :: sample_calls tr'
  | _ :: tr' => sample_calls tr'
  end.

(** [Chain tok x calls y]: the calls form the recurrence started at the
    running sample [x]: each call's argument is the running sample, the next
    running sample is what the returned distribution draws with token [tok],
    and [y] is the last one. *)
Inductive Chain (tok : Token)
    : Tensor -> list (option Tensor * Distribution) -> Tensor -> Prop :=
| Chain_nil : forall x, Chain tok x [] x
| Chain_cons : forall x d calls y,
    Chain tok (sample d [] tok) calls y ->
    Chain tok x ((Some x, d) :: calls) y.

(** The sample calls a recurrence makes: one draw of shape [[]] from each
    distribution returned, all with the one token. *)
Definition recurrence_samples (tok : Token)
    (calls : list (option Tensor * Distribution))
    : list (Distribution * list Z * Token) :=
  map (fun c => (snd c, @nil Z, tok)) calls.

(** The state right after a call of [distribution_fn] that returned [d] and
    left the world [w]. *)
Definition after_fn_call (st : State) (arg : option Tensor)
    (d : Distribution) (w : World) : State :=
  {| env := w; entropy := entropy st;
     trace := trace st ++ [EvDistributionFn arg d] |}.

(** The step count [_sample_n] resolves, case by case: the static value of
    [num_steps] when it was given, else the static element count of the
    event shape of the base distribution [d0]. *)
Definition static_steps (self : Autoregressive) (d0 : Distribution)
    : option Z :=
  match _num_steps self with
  | Some x => get_static_value x
  | None => num_elements (event_shape d0)
  end.

(** The count known on execution only, in the world [w] left by the
    materialization of [d0]: the value of [num_steps] when it was given,
    else the product of the dynamic event shape. *)
Definition dynamic_steps (self : Autoregressive) (d0 : Distribution)
    (w : World) : Z :=
  match _num_steps self with
  | Some x => value_in x w
  | None => reduce_prod (event_shape_tensor d0)
  end.

Definition resolved_steps (self : Autoregressive) (d0 : Distribution)
    (w : World) : nat :=
  match static_steps self d0 with
  | Some k => Z.to_nat k
  | None => Z.to_nat (dynamic_steps self d0 w)
  end.

(** Two instances that differ at most in [num_steps]: the same function,
    the same [sample0], the same recorded dtype and reparameterization
    type. *)
Definition same_except_num_steps (self1 self2 : Autoregressive) : Prop :=
  _distribution_fn self1 = _distribution_fn self2 /\
  _sample0 self1 = _sample0 self2 /\
  _dtype self1 = _dtype self2 /\
  _reparameterization_type self1 = _reparameterization_type self2.

(** The token [SeedStream] returns in a state. *)
Definition derived_token (seed : option Z) (salt : string) (st : State)
    : Token :=
  match seed with
  | Some s => seed_hash s salt
  | None => entropy st 0%nat
  end.

(** [msg] contains [s]. *)
Definition mentions (msg s : string) : Prop :=
  exists a b, msg = a ++ s ++ b.

End Model.

Arguments ConstantSteps {World} k.
Arguments EvSeedStream {Tensor} seed salt token.
Arguments unknown_shape : simpl never.
Arguments tf_range : simpl never.

(** ** A concrete instance

    Tensors are integers and the world is one integer variable that
    [distribution_fn] increments on each call.  The distribution returned
    reports [float32] while the variable is below 10 and [float64] from
    then on; its draws add the token to the conditioning value. *)
Module Demo.

Definition hash (s : Z) (salt : string) : Token :=
  s + Z.of_nat (String.length salt).

Definition fn (arg : option Z) (w : Z) : Distribution Z * Z :=
  let x := match arg with Some v => v | None => 0 end in
  ({| dtype := if (w <? 10)%Z then float32 else float64;
      reparameterization_type := FULLY_REPARAMETERIZED;
      batch_shape_tensor := [3];
      event_shape := Some [Some 2];
      event_shape_tensor := [2];
      sample := fun shape tok => x + tok + Z.of_nat (List.length shape);
      log_prob := fun v => v - x;
      prob := fun v => v * 2 |},
   w + 1).

(** The same, with an event shape that is not statically known. *)
Definition fn_dyn (arg : option Z) (w : Z) : Distribution Z * Z :=
  let x := match arg with Some v => v | None => 0 end in
  ({| dtype := float32;
      reparameterization_type := FULLY_REPARAMETERIZED;
      batch_shape_tensor := [3];
      event_shape := Some [None];
      event_shape_tensor := [3];
      sample := fun shape tok => x + tok + Z.of_nat (List.length shape);
      log_prob := fun v => v - x;
      prob := fun v => v * 2 |},
   w + 1).

Definition st0 : State Z Z :=
  {| env := 0; entropy := fun i => 100 + Z.of_nat i; trace := [] |}.

(** A later state, in which [fn] has switched to [float64]. *)
Definition st_late : State Z Z :=
  {| env := 10; entropy := fun i => 100 + Z.of_nat i; trace := [] |}.

(** An event shape known only on execution, of 46341 x 46341 entries:
    more than [int32] holds. *)
Definition fn_big (arg : option Z) (w : Z) : Distribution Z * Z :=
  let x := match arg with Some v => v | None => 0 end in
  ({| dtype := float32;
      reparameterization_type := FULLY_REPARAMETERIZED;
      batch_shape_tensor := [];
      event_shape := None;
      event_shape_tensor := [46341; 46341];
      sample := fun shape tok => x + tok + Z.of_nat (List.length shape);
      log_prob := fun v => v - x;
      prob := fun v => v * 2 |},
   w + 1).

Definition ar (num_steps : option (NumSteps Z)) (validate_args : bool)
    : Autoregressive Z Z :=
  {| _distribution_fn := fn;
     _sample0 := Some 0;
     _num_steps := num_steps;
     _dtype := float32;
     _reparameterization_type := FULLY_REPARAMETERIZED;
     _validate_args := validate_args;
     _allow_nan_stats := true;
     _name := "Autoregressive" |}.

Definition ar_big : Autoregressive Z Z :=
  {| _distribution_fn := fn_big;
     _sample0 := Some 0;
     _num_steps := None;
     _dtype := float32;
     _reparameterization_type := FULLY_REPARAMETERIZED;
     _validate_args := false;
     _allow_nan_stats := true;
     _name := "Autoregressive" |}.

Definition ar_dyn : Autoregressive Z Z :=
  {| _distribution_fn := fn_dyn;
     _sample0 := Some 0;
     _num_steps := None;
     _dtype := float32;
     _reparameterization_type := FULLY_REPARAMETERIZED;
     _validate_args := false;
     _allow_nan_stats := true;
     _name := "Autoregressive" |}.

End Demo.

(** ** Runs on the concrete instance *)

Example demo_init_is_ar :
  fst (__init__ Demo.fn (Some 0) (Some (ConstantSteps 2)) false true
         "Autoregressive" Demo.st0)
  = Ok (Demo.ar (Some (ConstantSteps 2)) false).
Proof. reflexivity. Qed.

Example demo_sample_two_steps :
  fst (_sample_n Demo.hash (Demo.ar (Some (ConstantSteps 2)) false) 6
         (Some 42) Demo.st0)
  = Ok (0 + 56 + 1 + 56 + 56).
Proof. vm_compute. reflexivity. Qed.

Example demo_sample_two_steps_calls :
  map fst (fn_calls (trace (snd
    (_sample_n Demo.hash (Demo.ar (Some (ConstantSteps 2)) false) 6
       (Some 42) Demo.st0))))
  = [Some 0; Some 57; Some 113].
Proof. vm_compute. reflexivity. Qed.

(** ** Properties *)

Section Properties.

Local Open Scope list_scope.

Variables Tensor World : Type.
Variable seed_hash : Z -> string -> Token.

#[local] Abbreviation Distribution := (Distribution Tensor).
#[local] Abbreviation Autoregressive := (Autoregressive Tensor World).
#[local] Abbreviation State := (State Tensor World).
#[local] Abbreviation M := (M Tensor World).

Implicit Types (self : Autoregressive) (st : State) (d : Distribution)
  (w : World) (tok : Token).

(** *** The monad and the primitives, step by step *)

Lemma bind_Ok {A B} (m : M A) (k : A -> M B) st a st' :
  m st = (Ok a, st') -> bind m k st = k a st'.
Proof. intros H. cbn. unfold M_bind. rewrite H. reflexivity. Qed.

Lemma bind_Raise {A B} (m : M A) (k : A -> M B) st e st' :
  m st = (Raise e, st') -> bind m k st = (Raise e, st').
Proof. intros H. cbn. unfold M_bind. rewrite H. reflexivity. Qed.

Arguments bind_Ok {A B} m k {st a st'} _.
Arguments bind_Raise {A B} m k {st e st'} _.

Lemma call_distribution_fn_run (fn : DistributionFn Tensor World) arg st d w :
  fn arg (env st) = (d, w) ->
  call_distribution_fn fn arg st = (Ok d, after_fn_call st arg d w).
Proof. intros H. unfold call_distribution_fn. rewrite H. reflexivity. Qed.

(** Both branches on [_sample0] pass [_sample0] itself. *)
Lemma materialize_run self st d w :
  _distribution_fn self (_sample0 self) (env st) = (d, w) ->
  match _sample0 self with
  | Some s => call_distribution_fn (_distribution_fn self) (Some s)
  | None => call_distribution_fn (_distribution_fn self) None
  end st = (Ok d, after_fn_call st (_sample0 self) d w).
Proof.
  intros H. destruct (_sample0 self); now apply call_distribution_fn_run.
Qed.

Lemma DType_eqb_eq (a b : DType) : DType_eqb a b = true <-> a = b.
Proof. destruct a, b; simpl; split; congruence. Qed.

Lemma ReparameterizationType_eqb_eq (a b : ReparameterizationType) :
  ReparameterizationType_eqb a b = true <-> a = b.
Proof. destruct a, b; simpl; split; congruence. Qed.

Lemma DType_eqb_neq (a b : DType) : DType_eqb a b = false <-> a <> b.
Proof. destruct a, b; simpl; split; congruence. Qed.

Lemma ReparameterizationType_eqb_neq (a b : ReparameterizationType) :
  ReparameterizationType_eqb a b = false <-> a <> b.
Proof. destruct a, b; simpl; split; congruence. Qed.

(** The three outcomes of [_get_distribution0]. *)
Lemma get_distribution0_ok self st d w :
  _distribution_fn self (_sample0 self) (env st) = (d, w) ->
  dtype d = _dtype self ->
  reparameterization_type d = _reparameterization_type self ->
  _get_distribution0 self st = (Ok d, after_fn_call st (_sample0 self) d w).
Proof.
  intros Hfn Hd Hr. unfold _get_distribution0.
  rewrite (bind_Ok _ _ (materialize_run self st Hfn)).
  rewrite (proj2 (DType_eqb_eq _ _) Hd).
  rewrite (proj2 (ReparameterizationType_eqb_eq _ _) Hr).
  reflexivity.
Qed.

Lemma get_distribution0_dtype self st d w :
  _distribution_fn self (_sample0 self) (env st) = (d, w) ->
  dtype d <> _dtype self ->
  _get_distribution0 self st =
    (Raise (ValueError (format_previously_now
       "`distribution_fn` returned distributions with different dtype -- previously "
       (DType_str (_dtype self)) (DType_str (dtype d)))),
     after_fn_call st (_sample0 self) d w).
Proof.
  intros Hfn Hd. unfold _get_distribution0.
  rewrite (bind_Ok _ _ (materialize_run self st Hfn)).
  rewrite (proj2 (DType_eqb_neq _ _) Hd). reflexivity.
Qed.

Lemma get_distribution0_reparameterization self st d w :
  _distribution_fn self (_sample0 self) (env st) = (d, w) ->
  dtype d = _dtype self ->
  reparameterization_type d <> _reparameterization_type self ->
  _get_distribution0 self st =
    (Raise (ValueError (format_previously_now
       "`distribution_fn` returned distributions with different reparameterize_type -- previously "
       (ReparameterizationType_str (_reparameterization_type self))
       (ReparameterizationType_str (reparameterization_type d)))),
     after_fn_call st (_sample0 self) d w).
Proof.
  intros Hfn Hd Hr. unfold _get_distribution0.
  rewrite (bind_Ok _ _ (materialize_run self st Hfn)).
  rewrite (proj2 (DType_eqb_eq _ _) Hd).
  rewrite (proj2 (ReparameterizationType_eqb_neq _ _) Hr). reflexivity.
Qed.

Lemma format_mentions_previous pre a b :
  mentions (format_previously_now pre a b) a.
Proof. exists pre, (" and now " ++ b)%string. reflexivity. Qed.

Lemma string_app_assoc (a b c : string) :
  ((a ++ b) ++ c = a ++ b ++ c)%string.
Proof. induction a; simpl; congruence. Qed.

Lemma string_app_nil_r (a : string) : (a ++ "" = a)%string.
Proof. induction a; simpl; congruence. Qed.

Lemma format_mentions_now pre a b :
  mentions (format_previously_now pre a b) b.
Proof.
  exists (pre ++ a ++ " and now ")%string, "". unfold format_previously_now.
  rewrite string_app_nil_r, !string_app_assoc. reflexivity.
Qed.

(** A base distribution that differs in either attribute is refused. *)
Lemma get_distribution0_raises self st d w :
  _distribution_fn self (_sample0 self) (env st) = (d, w) ->
  dtype d <> _dtype self \/
  reparameterization_type d <> _reparameterization_type self ->
  exists msg,
    _get_distribution0 self st
      = (Raise (ValueError msg), after_fn_call st (_sample0 self) d w).
Proof.
  intros Hfn Hdiff.
  destruct (DType_eqb (dtype d) (_dtype self)) eqn:E.
  - apply DType_eqb_eq in E.
    destruct Hdiff as [H|H]; [contradiction|].
    eexists. now apply get_distribution0_reparameterization.
  - apply DType_eqb_neq in E.
    eexists. now apply get_distribution0_dtype.
Qed.

(** *** The trace readers distribute over concatenation *)

Lemma fn_calls_app (t1 t2 : list (Event Tensor)) :
  fn_calls (t1 ++ t2) = fn_calls t1 ++ fn_calls t2.
Proof.
  induction t1 as [|e t1 IH]; simpl; [reflexivity|].
  destruct e; simpl; now rewrite IH.
Qed.

Lemma seed_calls_app (t1 t2 : list (Event Tensor)) :
  seed_calls (t1 ++ t2) = seed_calls t1 ++ seed_calls t2.
Proof.
  induction t1 as [|e t1 IH]; simpl; [reflexivity|].
  destruct e; simpl; now rewrite IH.
Qed.

Lemma sample_calls_app (t1 t2 : list (Event Tensor)) :
  sample_calls (t1 ++ t2) = sample_calls t1 ++ sample_calls t2.
Proof.
  induction t1 as [|e t1 IH]; simpl; [reflexivity|].
  destruct e; simpl; now rewrite IH.
Qed.

(** *** The recurrence *)

Lemma recurrence_step_run self tok s st d w :
  _distribution_fn self (Some s) (env st) = (d, w) ->
  recurrence_step self tok s st =
    (Ok (sample d [] tok),
     log (EvSample d [] tok) (after_fn_call st (Some s) d w)).
Proof.
  intros H. unfold recurrence_step, distribution_fn.
  rewrite (bind_Ok _ _ (call_distribution_fn_run _ _ st H)). reflexivity.
Qed.

(** What a loop of recurrence steps does, whatever it iterates over: it
    never fails, it makes one call of [distribution_fn] per element, the
    calls form a chain from the initial sample to the result, it derives no
    seed, and every draw uses the token [tok]. *)
Lemma for_in_recurrence {B} (xs : list B) self tok :
  forall s st, exists out st' tr,
    for_in xs (recurrence_step self tok) s st = (Ok out, st') /\
    trace st' = trace st ++ tr /\
    entropy st' = entropy st /\
    List.length (fn_calls tr) = List.length xs /\
    Chain tok s (fn_calls tr) out /\
    seed_calls tr = [] /\
    sample_calls tr = recurrence_samples tok (fn_calls tr).
Proof.
  induction xs as [|x xs IH]; intros s st.
  - exists s, st, []. simpl. rewrite app_nil_r.
    repeat split; constructor.
  - destruct (_distribution_fn self (Some s) (env st)) as [d w] eqn:Hfn.
    pose proof (recurrence_step_run self tok s st Hfn) as Hstep.
    destruct (IH (sample d [] tok)
                (log (EvSample d [] tok) (after_fn_call st (Some s) d w)))
      as (out & st' & tr & Hrun & Htr & Hent & Hlen & Hch & Hseed & Hsam).
    exists out, st', (EvDistributionFn (Some s) d :: EvSample d [] tok :: tr).
    cbn [for_in]. rewrite (bind_Ok _ _ Hstep).
    repeat split.
    + exact Hrun.
    + rewrite Htr. simpl. rewrite <- !app_assoc. reflexivity.
    + rewrite Hent. reflexivity.
    + simpl. now rewrite Hlen.
    + simpl. now constructor.
    + simpl. exact Hseed.
    + simpl. now rewrite Hsam.
Qed.

(** The fold of the dynamic path runs the same loop as the [for] of the
    static path. *)
Lemma tf_foldl_for_in {A B} (f : A -> M A) (xs : list B) :
  forall s st, tf_foldl (fun a (_ : B) => f a) xs s st = for_in xs f s st.
Proof.
  induction xs as [|x xs IH]; intros s st; simpl; [reflexivity|].
  unfold M_bind. destruct (f s st) as [[a|e] st']; [apply IH | reflexivity].
Qed.

Lemma range_length k : List.length (range k) = Z.to_nat k.
Proof. unfold range. now rewrite length_map, length_seq. Qed.

Lemma tf_range_nonneg k :
  0 <= k ->
  exists elems,
    tf_range 0 k = Ok elems /\ List.length elems = Z.to_nat k.
Proof.
  intros Hk. unfold tf_range.
  destruct (Z.ltb_spec k 0); [lia|].
  eexists. split; [reflexivity|].
  now rewrite length_map, length_seq, Z.sub_0_r.
Qed.

Lemma tf_range_negative k :
  k < 0 -> exists msg, tf_range 0 k = Raise (InvalidArgumentError msg).
Proof.
  intros Hk. unfold tf_range.
  destruct (Z.ltb_spec k 0); [|lia]. eexists. reflexivity.
Qed.

(** [int32] wrap-around is a congruence modulo 2^32, so the wrapped running
    product is the wrapped product. *)
Lemma wrap_int32_mul_l a x : wrap_int32 (wrap_int32 a * x) = wrap_int32 (a * x).
Proof.
  unfold wrap_int32. f_equal.
  replace ((a + 2147483648) mod 4294967296 - 2147483648)
    with (a + 2147483648 - 2147483648
          - 4294967296 * ((a + 2147483648) / 4294967296)).
  2:{ pose proof (Z.div_mod (a + 2147483648) 4294967296). lia. }
  replace ((a + 2147483648 - 2147483648
            - 4294967296 * ((a + 2147483648) / 4294967296)) * x + 2147483648)
    with (a * x + 2147483648
          + (- ((a + 2147483648) / 4294967296) * x) * 4294967296) by ring.
  apply Z.mod_add. lia.
Qed.

Lemma fold_wrap_product xs : forall a,
  wrap_int32 (fold_left (fun acc x => wrap_int32 (acc * x)) xs a)
  = wrap_int32 (a * product xs).
Proof.
  induction xs as [|x xs IH]; intros a; simpl.
  - now rewrite Z.mul_1_r.
  - rewrite IH, wrap_int32_mul_l. f_equal. ring.
Qed.

Lemma wrap_int32_idem z : wrap_int32 (wrap_int32 z) = wrap_int32 z.
Proof.
  pose proof (wrap_int32_mul_l z 1) as H. now rewrite !Z.mul_1_r in H.
Qed.

Lemma fold_wrap_in_range xs : forall a,
  wrap_int32 a = a ->
  wrap_int32 (fold_left (fun acc x => wrap_int32 (acc * x)) xs a)
  = fold_left (fun acc x => wrap_int32 (acc * x)) xs a.
Proof.
  induction xs as [|x xs IH]; intros a Ha; simpl; [exact Ha|].
  apply IH, wrap_int32_idem.
Qed.

Lemma reduce_prod_wrap xs : reduce_prod xs = wrap_int32 (product xs).
Proof.
  unfold reduce_prod. rewrite <- (@fold_wrap_in_range xs 1) by reflexivity.
  rewrite fold_wrap_product. f_equal. lia.
Qed.

Lemma SeedStream_run seed salt st :
  exists st2,
    SeedStream seed_hash seed salt st
      = (Ok (derived_token seed_hash seed salt st), st2) /\
    env st2 = env st /\
    trace st2 = trace st
      ++ [EvSeedStream seed salt (derived_token seed_hash seed salt st)].
Proof.
  destruct seed as [s|]; simpl; eexists; repeat split.
Qed.

(** *** [_sample_n], symbolically executed

    With a base distribution that passes the consistency check, [_sample_n]
    is the loop of its resolved count, started on the first draw in the
    state reached after the materialization, the seed derivation and that
    draw; on the fold path the loop is preceded by [tf.range], which may
    refuse the count. *)
Lemma sample_n_unfold self n seed st d0 w :
  _distribution_fn self (_sample0 self) (env st) = (d0, w) ->
  dtype d0 = _dtype self ->
  reparameterization_type d0 = _reparameterization_type self ->
  let st1 := after_fn_call st (_sample0 self) d0 w in
  let tok := derived_token seed_hash seed "Autoregressive" st in
  let st3 :=
    log (EvSample d0 [n] tok)
      (snd (SeedStream seed_hash seed "Autoregressive" st1)) in
  _sample_n seed_hash self n seed st =
    match static_steps self d0 with
    | Some k =>
        for_in (range k) (recurrence_step self tok) (sample d0 [n] tok) st3
    | None =>
        match tf_range 0 (dynamic_steps self d0 w) with
        | Ok elems =>
            tf_foldl (fun s (_ : Z) => recurrence_step self tok s)
              elems (sample d0 [n] tok) st3
        | Raise e => (Raise e, st3)
        end
    end.
Proof.
  intros Hfn Hd Hr st1 tok st3. unfold _sample_n.
  rewrite (bind_Ok _ _ (get_distribution0_ok self st Hfn Hd Hr)).
  fold st1. unfold static_steps, dynamic_steps.
  destruct (_num_steps self) as [x|].
  - destruct seed as [s|]; cbn; unfold M_bind; cbn;
      (destruct (get_static_value x); [reflexivity|]);
      unfold M_lift; destruct (tf_range 0 (value_in x w)); reflexivity.
  - destruct (num_elements (event_shape d0));
      destruct seed as [s|]; cbn; unfold M_bind; cbn; try reflexivity;
      unfold M_lift;
      destruct (tf_range 0 (reduce_prod (event_shape_tensor d0)));
      reflexivity.
Qed.

(** The state [_sample_n] is in when the loop starts. *)
Lemma sample_n_prologue_trace self n seed st d0 w :
  let tok := derived_token seed_hash seed "Autoregressive" st in
  trace (log (EvSample d0 [n] tok)
           (snd (SeedStream seed_hash seed "Autoregressive"
                   (after_fn_call st (_sample0 self) d0 w))))
  = trace st ++ [EvDistributionFn (_sample0 self) d0;
                 EvSeedStream seed "Autoregressive" tok;
                 EvSample d0 [n] tok].
Proof.
  intros tok.
  destruct (SeedStream_run seed "Autoregressive"
              (after_fn_call st (_sample0 self) d0 w))
    as (st2 & Hseed & _ & Htr2).
  change (derived_token seed_hash seed "Autoregressive"
            (after_fn_call st (_sample0 self) d0 w)) with tok in *.
  rewrite Hseed. cbn [snd log trace]. rewrite Htr2.
  cbn [after_fn_call trace]. rewrite <- !app_assoc. reflexivity.
Qed.

(** Everything a successful [_sample_n] does, in one statement: when the
    count is static, or is dynamic and not negative, the events it adds to
    the trace are the materialization of the base distribution, one seed
    derivation with the salt ["Autoregressive"], the first draw, and then
    the recurrence of the resolved length. *)
Lemma sample_n_spec self n seed st d0 w :
  _distribution_fn self (_sample0 self) (env st) = (d0, w) ->
  dtype d0 = _dtype self ->
  reparameterization_type d0 = _reparameterization_type self ->
  (static_steps self d0 = None -> 0 <= dynamic_steps self d0 w) ->
  let tok := derived_token seed_hash seed "Autoregressive" st in
  exists out st' tr,
    _sample_n seed_hash self n seed st = (Ok out, st') /\
    trace st' =
      trace st ++ EvDistributionFn (_sample0 self) d0
               :: EvSeedStream seed "Autoregressive" tok
               :: EvSample d0 [n] tok :: tr /\
    List.length (fn_calls tr) = resolved_steps self d0 w /\
    Chain tok (sample d0 [n] tok) (fn_calls tr) out /\
    seed_calls tr = [] /\
    sample_calls tr = recurrence_samples tok (fn_calls tr).
Proof.
  intros Hfn Hd Hr Hnn tok.
  rewrite (sample_n_unfold self n seed st Hfn Hd Hr). fold tok.
  pose proof (sample_n_prologue_trace self n seed st d0 w) as Htr3.
  cbv zeta in Htr3. fold tok in Htr3.
  set (st3 := log (EvSample d0 [n] tok)
                (snd (SeedStream seed_hash seed "Autoregressive"
                        (after_fn_call st (_sample0 self) d0 w)))) in *.
  unfold resolved_steps.
  destruct (static_steps self d0) as [k|].
  - destruct (for_in_recurrence (range k) self tok (sample d0 [n] tok) st3)
      as (out & st' & tr & Hrun & Htr & _ & Hlen & Hch & Hsd & Hsm).
    exists out, st', tr. rewrite range_length in Hlen.
    repeat split; try assumption.
    rewrite Htr, Htr3, <- app_assoc. reflexivity.
  - destruct (tf_range_nonneg (Hnn eq_refl)) as (elems & Hrange & Hel).
    rewrite Hrange, tf_foldl_for_in.
    destruct (for_in_recurrence elems self tok (sample d0 [n] tok) st3)
      as (out & st' & tr & Hrun & Htr & _ & Hlen & Hch & Hsd & Hsm).
    exists out, st', tr. rewrite Hel in Hlen.
    repeat split; try assumption.
    rewrite Htr, Htr3, <- app_assoc. reflexivity.
Qed.

(** On the fold path a negative count is refused by [tf.range]: the base
    distribution has been materialized and drawn from, the recurrence is
    not entered. *)
Lemma sample_n_negative_fold self n seed st d0 w :
  _distribution_fn self (_sample0 self) (env st) = (d0, w) ->
  dtype d0 = _dtype self ->
  reparameterization_type d0 = _reparameterization_type self ->
  static_steps self d0 = None ->
  dynamic_steps self d0 w < 0 ->
  let tok := derived_token seed_hash seed "Autoregressive" st in
  exists msg st',
    _sample_n seed_hash self n seed st
      = (Raise (InvalidArgumentError msg), st') /\
    trace st' =
      trace st ++ [EvDistributionFn (_sample0 self) d0;
                   EvSeedStream seed "Autoregressive" tok;
                   EvSample d0 [n] tok].
Proof.
  intros Hfn Hd Hr Hs Hneg tok.
  rewrite (sample_n_unfold self n seed st Hfn Hd Hr). fold tok.
  rewrite Hs. destruct (tf_range_negative Hneg) as (msg & Hrange).
  rewrite Hrange. do 2 eexists. split; [reflexivity|].
  apply sample_n_prologue_trace.
Qed.

(** *** The sampling recurrence *)

(** C1.  With a statically known step count [k >= 1] and a base distribution
    that passes the consistency check, [_sample_n] succeeds and calls
    [distribution_fn] exactly [k + 1] times: first on [sample0], which
    materializes the base distribution [d0], then [k] times in a chain that
    starts at [d0]'s draw, where each call's argument is the draw of the
    distribution the previous call returned; the value returned is the end
    of that chain, the draw of the [k]-th recurrence step. *)
Theorem sample_n_static_invocations self n seed st k d0 w :
  _num_steps self = Some (ConstantSteps k) ->
  1 <= k ->
  _distribution_fn self (_sample0 self) (env st) = (d0, w) ->
  dtype d0 = _dtype self ->
  reparameterization_type d0 = _reparameterization_type self ->
  let tok := derived_token seed_hash seed "Autoregressive" st in
  exists out st' tr rest,
    _sample_n seed_hash self n seed st = (Ok out, st') /\
    trace st' = trace st ++ tr /\
    fn_calls tr = (_sample0 self, d0) :: rest /\
    Z.of_nat (List.length (fn_calls tr)) = k + 1 /\
    Z.of_nat (List.length rest) = k /\
    Chain tok (sample d0 [n] tok) rest out.
Proof.
  intros Hk Hpos Hfn Hd Hr tok.
  assert (Hnn : static_steps self d0 = None ->
                0 <= dynamic_steps self d0 w).
  { unfold static_steps. rewrite Hk. discriminate. }
  destruct (sample_n_spec self n seed st Hfn Hd Hr Hnn)
    as (out & st' & tr & Hrun & Htr & Hlen & Hch & _ & _).
  fold tok in Htr, Hch.
  unfold resolved_steps, static_steps in Hlen. rewrite Hk in Hlen.
  cbn [get_static_value] in Hlen.
  exists out, st', (EvDistributionFn (_sample0 self) d0
                    :: EvSeedStream seed "Autoregressive" tok
                    :: EvSample d0 [n] tok :: tr), (fn_calls tr).
  repeat split; try assumption.
  - cbn [fn_calls List.length]. rewrite Hlen. lia.
  - rewrite Hlen. lia.
Qed.

Lemma wrap_int32_small z :
  -2147483648 <= z < 2147483648 -> wrap_int32 z = z.
Proof. intros H. unfold wrap_int32. rewrite Z.mod_small; lia. Qed.

Lemma product_nonneg xs : Forall (fun x => 0 <= x) xs -> 0 <= product xs.
Proof.
  induction 1 as [|x xs Hx _ IH]; cbn; [lia|].
  fold (product xs). now apply Z.mul_nonneg_nonneg.
Qed.

(** C5, as the code has it.  When [num_steps] was not given: if the event
    shape of the fresh base distribution has the static element count [m],
    [_sample_n] is the [for] loop over [range(m)] and makes exactly [m]
    recurrence calls.  If the count is not static, it is computed as the
    product of the dynamic event shape in [int32], which is the product
    itself when the dimensions are not negative and the product is below
    [2^31]; when the count is not negative, [_sample_n] is the [tf.foldl]
    over [tf.range(0, count)], of length [count], and makes [count]
    recurrence calls; when the count has wrapped to a negative number,
    [tf.range] refuses it and [_sample_n] raises right after the base
    draw. *)
Theorem sample_n_default_steps self n seed st d0 w :
  _num_steps self = None ->
  _distribution_fn self (_sample0 self) (env st) = (d0, w) ->
  dtype d0 = _dtype self ->
  reparameterization_type d0 = _reparameterization_type self ->
  let tok := derived_token seed_hash seed "Autoregressive" st in
  let st3 :=
    log (EvSample d0 [n] tok)
      (snd (SeedStream seed_hash seed "Autoregressive"
              (after_fn_call st (_sample0 self) d0 w))) in
  let count := reduce_prod (event_shape_tensor d0) in
  (forall m, num_elements (event_shape d0) = Some m ->
     _sample_n seed_hash self n seed st =
       for_in (range m) (recurrence_step self tok) (sample d0 [n] tok) st3 /\
     exists out st' tr,
       _sample_n seed_hash self n seed st = (Ok out, st') /\
       trace st' = trace st3 ++ tr /\
       List.length (fn_calls tr) = Z.to_nat m /\
       Chain tok (sample d0 [n] tok) (fn_calls tr) out) /\
  (num_elements (event_shape d0) = None ->
     count = wrap_int32 (product (event_shape_tensor d0)) /\
     (Forall (fun x => 0 <= x) (event_shape_tensor d0) ->
      product (event_shape_tensor d0) < 2147483648 ->
      count = product (event_shape_tensor d0)) /\
     (0 <= count ->
      exists elems,
        tf_range 0 count = Ok elems /\
        Z.of_nat (List.length elems) = count /\
        _sample_n seed_hash self n seed st =
          tf_foldl (fun s (_ : Z) => recurrence_step self tok s)
            elems (sample d0 [n] tok) st3 /\
        exists out st' tr,
          _sample_n seed_hash self n seed st = (Ok out, st') /\
          trace st' = trace st3 ++ tr /\
          Z.of_nat (List.length (fn_calls tr)) = count /\
          Chain tok (sample d0 [n] tok) (fn_calls tr) out) /\
     (count < 0 ->
      exists msg,
        _sample_n seed_hash self n seed st
          = (Raise (InvalidArgumentError msg), st3))).
Proof.
  intros Hnone Hfn Hd Hr tok st3 count.
  pose proof (sample_n_unfold self n seed st Hfn Hd Hr) as Hun.
  cbv zeta in Hun. fold tok in Hun. fold st3 in Hun.
  unfold static_steps, dynamic_steps in Hun. rewrite Hnone in Hun.
  split.
  - intros m Hm. rewrite Hm in Hun. split; [exact Hun|].
    rewrite Hun.
    destruct (for_in_recurrence (range m) self tok (sample d0 [n] tok) st3)
      as (out & st' & tr & Hrun & Htr & _ & Hlen & Hch & _).
    exists out, st', tr. rewrite range_length in Hlen. now repeat split.
  - intros Hm. rewrite Hm in Hun. fold count in Hun.
    split; [apply reduce_prod_wrap|]. split; [|split].
    + intros Hdims Hsmall. unfold count. rewrite reduce_prod_wrap.
      apply wrap_int32_small. pose proof (product_nonneg Hdims). lia.
    + intros Hcount.
      destruct (tf_range_nonneg Hcount) as (elems & Hrange & Hel).
      rewrite Hrange in Hun. exists elems.
      split; [exact Hrange|]. split; [rewrite Hel; lia|].
      split; [exact Hun|].
      rewrite Hun, tf_foldl_for_in.
      destruct (for_in_recurrence elems self tok (sample d0 [n] tok) st3)
        as (out & st' & tr & Hrun & Htr & _ & Hlen & Hch & _).
      exists out, st', tr. repeat split; try assumption.
      rewrite Hlen, Hel. lia.
    + intros Hneg. destruct (tf_range_negative Hneg) as (msg & Hrange).
      rewrite Hrange in Hun. now exists msg.
Qed.

(** C6.  Whenever the base distribution passes the consistency check,
    [_sample_n] derives exactly one seed token, from the caller's seed and
    the salt ["Autoregressive"]; the draw from the base distribution uses
    it, and so does the draw of every repetition of the recurrence: no
    other token is derived or used.  This holds of the run that returns a
    sample, with its resolved number of repetitions, and of the run that
    [tf.range] stops on a negative dynamic count, which makes none. *)
Theorem sample_n_single_token self n seed st d0 w :
  _distribution_fn self (_sample0 self) (env st) = (d0, w) ->
  dtype d0 = _dtype self ->
  reparameterization_type d0 = _reparameterization_type self ->
  let tok := derived_token seed_hash seed "Autoregressive" st in
  exists r st' tr rest,
    _sample_n seed_hash self n seed st = (r, st') /\
    trace st' = trace st ++ tr /\
    seed_calls tr = [(seed, "Autoregressive", tok)] /\
    (forall s, seed = Some s -> tok = seed_hash s "Autoregressive") /\
    fn_calls tr = (_sample0 self, d0) :: rest /\
    sample_calls tr = (d0, [n], tok) :: recurrence_samples tok rest /\
    Forall (fun c => snd c = tok) (sample_calls tr) /\
    ((static_steps self d0 = None -> 0 <= dynamic_steps self d0 w) ->
     (exists out, r = Ok out) /\
     List.length rest = resolved_steps self d0 w) /\
    (static_steps self d0 = None -> dynamic_steps self d0 w < 0 ->
     (exists msg, r = Raise (InvalidArgumentError msg)) /\ rest = []).
Proof.
  intros Hfn Hd Hr tok.
  assert (Hcase :
    (static_steps self d0 = None -> 0 <= dynamic_steps self d0 w) \/
    (static_steps self d0 = None /\ dynamic_steps self d0 w < 0)).
  { destruct (static_steps self d0); [left; discriminate|].
    destruct (Z_lt_le_dec (dynamic_steps self d0 w) 0);
      [right; now split | left; now intros _]. }
  destruct Hcase as [Hnn | [Hs Hneg]].
  - destruct (sample_n_spec self n seed st Hfn Hd Hr Hnn)
      as (out & st' & tr & Hrun & Htr & Hlen & _ & Hsd & Hsm).
    fold tok in Htr, Hsm.
    exists (Ok out), st', (EvDistributionFn (_sample0 self) d0
                      :: EvSeedStream seed "Autoregressive" tok
                      :: EvSample d0 [n] tok :: tr), (fn_calls tr).
    cbn [fn_calls seed_calls sample_calls]. rewrite Hsd, Hsm.
    repeat split; try assumption.
    + intros s ->. reflexivity.
    + constructor; [reflexivity|].
      unfold recurrence_samples. apply Forall_forall.
      intros c Hc. apply in_map_iff in Hc. destruct Hc as (c' & <- & _).
      reflexivity.
    + now exists out.
    + exfalso. pose proof (Hnn ltac:(assumption)). lia.
    + exfalso. pose proof (Hnn ltac:(assumption)). lia.
  - destruct (sample_n_negative_fold self n seed st Hfn Hd Hr Hs Hneg)
      as (msg & st' & Hrun & Htr).
    fold tok in Htr.
    exists (Raise (InvalidArgumentError msg)), st'.
    exists [EvDistributionFn (_sample0 self) d0;
            EvSeedStream seed "Autoregressive" tok;
            EvSample d0 [n] tok], [].
    cbn [fn_calls seed_calls sample_calls recurrence_samples map].
    repeat split; try assumption;
      try (exfalso;
           match goal with
           | Hnn : _ -> 0 <= _ |- _ => specialize (Hnn Hs); lia
           end).
    + intros s ->. reflexivity.
    + repeat constructor.
    + now exists msg.
Qed.

(** *** Construction *)

Lemma init_materialize_run (fn : DistributionFn Tensor World) s0 st d w :
  fn s0 (env st) = (d, w) ->
  match s0 with
  | Some s => call_distribution_fn fn (Some s)
  | None => call_distribution_fn fn None
  end st = (Ok d, after_fn_call st s0 d w).
Proof. intros H. destruct s0; now apply call_distribution_fn_run. Qed.

(** The conversion of [num_steps] either returns it as it is or refuses a
    Python integer outside [int64]; it never touches the state. *)
Lemma convert_fits (ns : option (NumSteps World)) st :
  (forall k, ns = Some (ConstantSteps k) -> fits_int64 k = true) ->
  convert_nonref_to_tensor ns st = (Ok ns, st).
Proof.
  intros H. destruct ns as [[k|v|v]|]; try reflexivity.
  cbn. now rewrite (H k eq_refl).
Qed.

Lemma convert_overflow k st :
  fits_int64 k = false ->
  exists msg,
    convert_nonref_to_tensor (Some (ConstantSteps k)) st
      = (Raise (ValueError msg), st : State).
Proof. intros H. cbn. rewrite H. eexists. reflexivity. Qed.

Lemma convert_inv (ns : option (NumSteps World)) st r st' :
  convert_nonref_to_tensor ns st = (Ok r, st') -> r = ns /\ st' = st.
Proof.
  destruct ns as [[k|v|v]|]; cbn;
    try (intros H; injection H as <- <-; now split).
  destruct (fits_int64 k); [|discriminate].
  intros H; injection H as <- <-; now split.
Qed.

(** What a successful construction recorded. *)
Lemma init_fields (fn : DistributionFn Tensor World) s0 ns v a nm st self st' :
  __init__ fn s0 ns v a nm st = (Ok self, st') ->
  _distribution_fn self = fn /\ _sample0 self = s0 /\ _num_steps self = ns /\
  _validate_args self = v /\
  _dtype self = dtype (fst (fn s0 (env st))) /\
  _reparameterization_type self
    = reparameterization_type (fst (fn s0 (env st))).
Proof.
  unfold __init__.
  destruct (convert_nonref_to_tensor ns st) as [[r|e] st1] eqn:Hc.
  2:{ rewrite (bind_Raise _ _ Hc). discriminate. }
  rewrite (bind_Ok _ _ Hc). destruct (convert_inv _ _ Hc) as [-> ->].
  destruct (fn s0 (env st)) as [d w] eqn:Hfn.
  rewrite (bind_Ok _ _ (init_materialize_run fn s0 st Hfn)).
  cbn [bind Monad_M]. unfold M_bind at 1.
  match goal with
  | |- context [Distribution__init__ ?s ?t] =>
      destruct (Distribution__init__ s t) as [[u|e] st1]
  end; [|discriminate].
  cbn. intros H. injection H as <- _. cbn. repeat split.
Qed.

(** Without validation nothing is checked: once [num_steps] is converted,
    construction succeeds, after its single call of [distribution_fn]. *)
Lemma init_unvalidated (fn : DistributionFn Tensor World) s0 ns a nm st :
  (forall k, ns = Some (ConstantSteps k) -> fits_int64 k = true) ->
  exists self,
    __init__ fn s0 ns false a nm st
      = (Ok self,
         after_fn_call st s0 (fst (fn s0 (env st))) (snd (fn s0 (env st)))).
Proof.
  intros Hfit. unfold __init__. rewrite (bind_Ok _ _ (convert_fits st Hfit)).
  destruct (fn s0 (env st)) as [d w] eqn:Hfn.
  rewrite (bind_Ok _ _ (init_materialize_run fn s0 st Hfn)).
  eexists. reflexivity.
Qed.

(** With validation, the sibling path: a static [num_steps] below 1 is
    refused at construction with an invalid-argument error that carries the
    text of the positivity assertion, and one from 1 on is accepted. *)
Lemma init_validated_static_check
    (fn : DistributionFn Tensor World) s0 k a nm st :
  fits_int64 k = true ->
  (k < 1 ->
   exists msg st',
     __init__ fn s0 (Some (ConstantSteps k)) true a nm st
       = (Raise (InvalidArgumentError msg), st') /\
     mentions msg "Argument `num_steps` must be positive") /\
  (1 <= k ->
   exists self st',
     __init__ fn s0 (Some (ConstantSteps k)) true a nm st = (Ok self, st')).
Proof.
  intros Hfit.
  assert (Hc : convert_nonref_to_tensor (Some (ConstantSteps k)) st
               = (Ok (Some (ConstantSteps k)), st : State)).
  { apply convert_fits. intros k' E. now injection E as <-. }
  split; intros Hk; unfold __init__; rewrite (bind_Ok _ _ Hc);
    destruct (fn s0 (env st)) as [d w] eqn:Hfn;
    rewrite (bind_Ok _ _ (init_materialize_run fn s0 st Hfn));
    cbn; unfold M_bind; cbn.
  - destruct (Z.ltb_spec 0 k); [lia|]. do 2 eexists.
    split; [reflexivity|]. exists "", "". reflexivity.
  - destruct (Z.ltb_spec 0 k); [|lia]. do 2 eexists. reflexivity.
Qed.

(** C10.  An object built without validation and with the static
    [num_steps = 0] collects no assertion; its [_sample_n] makes no
    repetition of the recurrence: it calls [distribution_fn] exactly once,
    to materialize the base distribution, and returns that distribution's
    draw [d0.sample(n, seed)]. *)
Theorem sample_n_zero_steps (fn : DistributionFn Tensor World) s0 a nm
    st_init self st_built n seed st d0 w :
  __init__ fn s0 (Some (ConstantSteps 0)) false a nm st_init
    = (Ok self, st_built) ->
  fn s0 (env st) = (d0, w) ->
  dtype d0 = _dtype self ->
  reparameterization_type d0 = _reparameterization_type self ->
  let tok := derived_token seed_hash seed "Autoregressive" st in
  (forall is_init, _parameter_control_dependencies self is_init = []) /\
  exists st' tr,
    _sample_n seed_hash self n seed st = (Ok (sample d0 [n] tok), st') /\
    trace st' = trace st ++ tr /\
    fn_calls tr = [(s0, d0)] /\
    sample_calls tr = [(d0, [n], tok)].
Proof.
  intros Hinit Hfn Hd Hr tok.
  destruct (init_fields _ _ _ _ _ _ _ Hinit)
    as (Efn & Es0 & Ens & Ev & _ & _).
  split.
  - intros is_init. unfold _parameter_control_dependencies.
    now rewrite Ev.
  - rewrite <- Efn, <- Es0 in Hfn.
    assert (Hnn : static_steps self d0 = None ->
                  0 <= dynamic_steps self d0 w).
    { unfold static_steps. rewrite Ens. discriminate. }
    destruct (sample_n_spec self n seed st Hfn Hd Hr Hnn)
      as (out & st' & tr & Hrun & Htr & Hlen & Hch & _ & Hsm).
    fold tok in Htr, Hch, Hsm.
    unfold resolved_steps, static_steps in Hlen. rewrite Ens in Hlen.
    cbn in Hlen. apply length_zero_iff_nil in Hlen.
    rewrite Hlen in Hch, Hsm. inversion Hch; subst out.
    exists st', (EvDistributionFn (_sample0 self) d0
                 :: EvSeedStream seed "Autoregressive" tok
                 :: EvSample d0 [n] tok :: tr).
    cbn [fn_calls sample_calls]. rewrite Hlen, Hsm. rewrite Es0 in *.
    repeat split; assumption.
Qed.

(** *** Density evaluation *)

Lemma log_prob_run self v st d w :
  _distribution_fn self (Some v) (env st) = (d, w) ->
  _log_prob self v st = (Ok (log_prob d v), after_fn_call st (Some v) d w).
Proof.
  intros H. unfold _log_prob, distribution_fn.
  rewrite (bind_Ok _ _ (call_distribution_fn_run _ _ st H)). reflexivity.
Qed.

Lemma prob_run self v st d w :
  _distribution_fn self (Some v) (env st) = (d, w) ->
  _prob self v st = (Ok (prob d v), after_fn_call st (Some v) d w).
Proof.
  intros H. unfold _prob, distribution_fn.
  rewrite (bind_Ok _ _ (call_distribution_fn_run _ _ st H)). reflexivity.
Qed.

(** C2.  [_log_prob(v)] makes one call of [distribution_fn], with argument
    [v], and returns the [log_prob(v)] of the distribution it gets;
    [_prob(v)] does the same with [prob(v)].  The trace grows by that single
    call: nothing is iterated. *)
Theorem density_delegates_once self v st :
  let (d, w) := _distribution_fn self (Some v) (env st) in
  _log_prob self v st
    = (Ok (log_prob d v),
       {| env := w; entropy := entropy st;
          trace := trace st ++ [EvDistributionFn (Some v) d] |}) /\
  _prob self v st
    = (Ok (prob d v),
       {| env := w; entropy := entropy st;
          trace := trace st ++ [EvDistributionFn (Some v) d] |}).
Proof.
  destruct (_distribution_fn self (Some v) (env st)) as [d w] eqn:H.
  split; [now apply log_prob_run | now apply prob_run].
Qed.

(** C9.  The densities are not guarded by the consistency check: when the
    conditional distribution that [distribution_fn(v)] returns has a dtype
    or a reparameterization type other than the recorded one, [_log_prob]
    and [_prob] still succeed and return that distribution's density.  The
    same call made through [_get_distribution0], which happens when [v] is
    [sample0], is refused with a [ValueError]. *)
Theorem density_skips_consistency_check self v st d w :
  _distribution_fn self (Some v) (env st) = (d, w) ->
  dtype d <> _dtype self \/
  reparameterization_type d <> _reparameterization_type self ->
  _log_prob self v st = (Ok (log_prob d v), after_fn_call st (Some v) d w) /\
  _prob self v st = (Ok (prob d v), after_fn_call st (Some v) d w) /\
  (_sample0 self = Some v ->
   exists msg,
     _get_distribution0 self st
       = (Raise (ValueError msg), after_fn_call st (Some v) d w)).
Proof.
  intros H Hdiff.
  split; [now apply log_prob_run|]. split; [now apply prob_run|].
  intros Hs0. rewrite <- Hs0 in H |- *.
  now apply get_distribution0_raises.
Qed.

(** *** Shape queries *)


(** *** The consistency check *)

(** C4.  When the base distribution that [distribution_fn] returns on
    re-materialization differs from the recorded dtype or reparameterization
    type, [_sample_n], [_batch_shape_tensor] and [_event_shape_tensor] all
    raise a [ValueError] right after that call, and its message contains
    both the recorded value and the value just returned: the dtypes when
    they differ, otherwise the reparameterization types.  No value is
    returned. *)
Theorem inconsistent_base_raises self n seed st d w :
  _distribution_fn self (_sample0 self) (env st) = (d, w) ->
  dtype d <> _dtype self \/
  reparameterization_type d <> _reparameterization_type self ->
  exists msg previously now,
    let st' := after_fn_call st (_sample0 self) d w in
    _sample_n seed_hash self n seed st = (Raise (ValueError msg), st') /\
    _batch_shape_tensor self st = (Raise (ValueError msg), st') /\
    _event_shape_tensor self st = (Raise (ValueError msg), st') /\
    mentions msg previously /\ mentions msg now /\
    previously <> now /\
    ((dtype d <> _dtype self /\
      previously = DType_str (_dtype self) /\ now = DType_str (dtype d)) \/
     (dtype d = _dtype self /\
      previously = ReparameterizationType_str (_reparameterization_type self) /\
      now = ReparameterizationType_str (reparameterization_type d))).
Proof.
  intros Hfn Hdiff.
  assert (Hcases :
    dtype d <> _dtype self \/
    (dtype d = _dtype self /\
     reparameterization_type d <> _reparameterization_type self)).
  { destruct (DType_eqb (dtype d) (_dtype self)) eqn:E.
    - apply DType_eqb_eq in E. right. split; [exact E|].
      destruct Hdiff as [H|H]; [contradiction|exact H].
    - left. now apply DType_eqb_neq. }
  destruct Hcases as [Hd | [Hd Hr]].
  - pose proof (get_distribution0_dtype self st Hfn Hd) as Hg.
    eexists _, (DType_str (_dtype self)), (DType_str (dtype d)).
    unfold _sample_n, _batch_shape_tensor, _event_shape_tensor.
    rewrite !(bind_Raise _ _ Hg).
    repeat split.
    + apply format_mentions_previous.
    + apply format_mentions_now.
    + intros E. apply Hd. destruct (dtype d), (_dtype self);
        cbn in E; congruence.
    + left. repeat split. exact Hd.
  - pose proof (get_distribution0_reparameterization self st Hfn Hd Hr) as Hg.
    eexists _, (ReparameterizationType_str (_reparameterization_type self)),
      (ReparameterizationType_str (reparameterization_type d)).
    unfold _sample_n, _batch_shape_tensor, _event_shape_tensor.
    rewrite !(bind_Raise _ _ Hg).
    repeat split.
    + apply format_mentions_previous.
    + apply format_mentions_now.
    + intros E. apply Hr.
      destruct (reparameterization_type d), (_reparameterization_type self);
        cbn in E; congruence.
    + right. repeat split. exact Hd.
Qed.

(** *** Construction, further *)

Lemma check_assertions_state (l : list (Assertion World)) st :
  snd (check_assertions l st) = st.
Proof.
  induction l as [|a l IH]; [reflexivity|].
  cbn [check_assertions bind Monad_M]. unfold M_bind.
  destruct a as [x r msg | x msg]; cbn [check_assertion].
  - destruct (0 =? r)%Z; [exact IH | reflexivity].
  - destruct (get_static_value x) as [k|]; [|exact IH].
    destruct (0 <? k)%Z; [exact IH | reflexivity].
Qed.


(** Construction cannot fail on [num_steps] when it is omitted or is a
    variable, validation or not, whatever the variable holds: no assertion
    is collected at construction then. *)
Theorem init_accepts_unset_and_variable
    (fn : DistributionFn Tensor World) s0 v a nm st (value : World -> Z) :
  (exists self st', __init__ fn s0 None v a nm st = (Ok self, st')) /\
  (exists self st',
     __init__ fn s0 (Some (VariableSteps value)) v a nm st = (Ok self, st')).
Proof.
  assert (Hnone : forall k, (None : option (NumSteps World))
                              = Some (ConstantSteps k) ->
                            fits_int64 k = true) by discriminate.
  assert (Hvar : forall k, Some (VariableSteps value)
                             = Some (ConstantSteps k) ->
                           fits_int64 k = true) by discriminate.
  split; unfold __init__;
    [rewrite (bind_Ok _ _ (convert_fits st Hnone))
    |rewrite (bind_Ok _ _ (convert_fits st Hvar))];
    destruct (fn s0 (env st)) as [d w] eqn:Hfn;
    rewrite (bind_Ok _ _ (init_materialize_run fn s0 st Hfn));
    destruct v; do 2 eexists; reflexivity.
Qed.

(** When the dtype and the reparameterization type that [distribution_fn]
    reports on [sample0] do not depend on the world, an object built by
    [__init__] never fails the consistency check: in every later state the
    base distribution is materialized, and [_sample_n] does not raise the
    [ValueError] of the check. *)
Theorem consistent_fn_never_refused
    (fn : DistributionFn Tensor World) s0 ns v a nm st self st_built :
  __init__ fn s0 ns v a nm st = (Ok self, st_built) ->
  (forall w1 w2,
     dtype (fst (fn s0 w1)) = dtype (fst (fn s0 w2)) /\
     reparameterization_type (fst (fn s0 w1))
       = reparameterization_type (fst (fn s0 w2))) ->
  forall st2 n seed,
    _get_distribution0 self st2
      = (Ok (fst (fn s0 (env st2))),
         after_fn_call st2 s0 (fst (fn s0 (env st2)))
           (snd (fn s0 (env st2)))) /\
    forall msg,
      fst (_sample_n seed_hash self n seed st2) <> Raise (ValueError msg).
Proof.
  intros Hinit Hindep st2 n seed.
  destruct (init_fields _ _ _ _ _ _ _ Hinit)
    as (Efn & Es0 & _ & _ & Ed & Er).
  destruct (Hindep (env st2) (env st)) as [Hd Hr].
  rewrite <- Ed in Hd. rewrite <- Er in Hr.
  destruct (fn s0 (env st2)) as [d w] eqn:Hfn. cbn [fst snd] in *.
  rewrite <- Efn, <- Es0 in Hfn.
  split.
  - rewrite <- Es0. now apply get_distribution0_ok.
  - intros msg.
    destruct (static_steps self d) as [k|] eqn:Hs;
      [|destruct (Z_lt_le_dec (dynamic_steps self d w) 0) as [Hneg|Hnn]].
    + destruct (sample_n_spec self n seed st2 Hfn Hd Hr)
        as (out & st3 & _ & Hrun & _); [now rewrite Hs|].
      now rewrite Hrun.
    + destruct (sample_n_negative_fold self n seed st2 Hfn Hd Hr Hs Hneg)
        as (m & st3 & Hrun & _).
      now rewrite Hrun.
    + destruct (sample_n_spec self n seed st2 Hfn Hd Hr (fun _ => Hnn))
        as (out & st3 & _ & Hrun & _).
      now rewrite Hrun.
Qed.

(** *** The [num_steps] property *)

Lemma num_steps_given_run self x st :
  _num_steps self = Some x -> num_steps self st = (Ok x, st).
Proof. intros Hx. unfold num_steps. now rewrite Hx. Qed.

Lemma num_steps_default_run self st d w :
  _num_steps self = None ->
  _distribution_fn self (_sample0 self) (env st) = (d, w) ->
  dtype d = _dtype self ->
  reparameterization_type d = _reparameterization_type self ->
  num_steps self st
    = (Ok match num_elements (event_shape d) with
          | Some m => ConstantSteps m
          | None =>
              DeferredSteps (fun _ => reduce_prod (event_shape_tensor d))
          end,
       after_fn_call st (_sample0 self) d w).
Proof.
  intros Hnone Hfn Hd Hr. unfold num_steps. rewrite Hnone.
  unfold _num_steps_deprecated_behavior.
  rewrite (bind_Ok _ _ (get_distribution0_ok self st Hfn Hd Hr)).
  destruct (num_elements (event_shape d)); reflexivity.
Qed.

(** When [num_steps] was given, the property returns it and touches
    nothing.  When it was not, the property materializes the base
    distribution, by one call of [distribution_fn], and returns the static
    element count of its event shape, or, when that is unknown, the [int32]
    product of its dynamic event shape; a base distribution that fails the
    consistency check makes the property raise a [ValueError]. *)
Theorem num_steps_property self :
  (forall x st, _num_steps self = Some x -> num_steps self st = (Ok x, st)) /\
  (forall st d w,
     _num_steps self = None ->
     _distribution_fn self (_sample0 self) (env st) = (d, w) ->
     (dtype d = _dtype self ->
      reparameterization_type d = _reparameterization_type self ->
      num_steps self st
        = (Ok match num_elements (event_shape d) with
              | Some m => ConstantSteps m
              | None =>
                  DeferredSteps
                    (fun _ => reduce_prod (event_shape_tensor d))
              end,
           after_fn_call st (_sample0 self) d w)) /\
     (dtype d <> _dtype self \/
      reparameterization_type d <> _reparameterization_type self ->
      exists msg,
        num_steps self st
          = (Raise (ValueError msg), after_fn_call st (_sample0 self) d w))).
Proof.
  split.
  - intros x st Hx. now apply num_steps_given_run.
  - intros st d w Hnone Hfn. split.
    + intros Hd Hr. now apply num_steps_default_run.
    + intros Hdiff. unfold num_steps. rewrite Hnone.
      unfold _num_steps_deprecated_behavior.
      destruct (get_distribution0_raises self st Hfn Hdiff) as (msg & Hg).
      exists msg. now rewrite (bind_Raise _ _ Hg).
Qed.

(** From one state, when the count that the [num_steps] property reports,
    taken in the world the materialization leaves, is not negative, it is
    exactly the number of repetitions of the recurrence that [_sample_n]
    performs. *)
Theorem num_steps_property_is_sample_count self n seed st d0 w :
  _distribution_fn self (_sample0 self) (env st) = (d0, w) ->
  dtype d0 = _dtype self ->
  reparameterization_type d0 = _reparameterization_type self ->
  exists x st1,
    num_steps self st = (Ok x, st1) /\
    (0 <= value_in x w ->
     exists out st' tr rest,
       _sample_n seed_hash self n seed st = (Ok out, st') /\
       trace st' = trace st ++ tr /\
       fn_calls tr = (_sample0 self, d0) :: rest /\
       Z.of_nat (List.length rest) = value_in x w).
Proof.
  intros Hfn Hd Hr.
  assert (Hrun : forall x,
    resolved_steps self d0 w = Z.to_nat (value_in x w) ->
    (static_steps self d0 = None -> dynamic_steps self d0 w = value_in x w) ->
    0 <= value_in x w ->
    exists out st' tr rest,
      _sample_n seed_hash self n seed st = (Ok out, st') /\
      trace st' = trace st ++ tr /\
      fn_calls tr = (_sample0 self, d0) :: rest /\
      Z.of_nat (List.length rest) = value_in x w).
  { intros x Hres Hdyn Hx.
    assert (Hnn : static_steps self d0 = None ->
                  0 <= dynamic_steps self d0 w)
      by (intros Hs; rewrite (Hdyn Hs); exact Hx).
    destruct (sample_n_spec self n seed st Hfn Hd Hr Hnn)
      as (out & st' & tr & Hok & Htr & Hlen & _).
    exists out, st'. eexists. exists (fn_calls tr).
    repeat split; [exact Hok | exact Htr | reflexivity |].
    rewrite Hlen, Hres. lia. }
  unfold resolved_steps, static_steps, dynamic_steps in Hrun.
  destruct (_num_steps self) as [x|] eqn:Hx.
  - exists x, st. split; [now apply num_steps_given_run|].
    apply Hrun; [destruct x; reflexivity | reflexivity].
  - do 2 eexists.
    split; [exact (num_steps_default_run self st Hx Hfn Hd Hr)|].
    apply Hrun; destruct (num_elements (event_shape d0));
      try reflexivity; discriminate.
Qed.

(** *** The step count of [_sample_n], further *)

(** With [num_steps] given, of whatever kind, and not negative, the
    recurrence is repeated exactly as many times as its value says, and a
    variable is read in the world that the materialization of the base
    distribution leaves, not in the one the call started in. *)
Theorem sample_n_given_steps self n seed st x d0 w :
  _num_steps self = Some x ->
  _distribution_fn self (_sample0 self) (env st) = (d0, w) ->
  dtype d0 = _dtype self ->
  reparameterization_type d0 = _reparameterization_type self ->
  0 <= value_in x w ->
  let tok := derived_token seed_hash seed "Autoregressive" st in
  exists out st' tr rest,
    _sample_n seed_hash self n seed st = (Ok out, st') /\
    trace st' = trace st ++ tr /\
    fn_calls tr = (_sample0 self, d0) :: rest /\
    Z.of_nat (List.length rest) = value_in x w /\
    Chain tok (sample d0 [n] tok) rest out.
Proof.
  intros Hx Hfn Hd Hr Hpos tok.
  assert (Hnn : static_steps self d0 = None ->
                0 <= dynamic_steps self d0 w)
    by (intros _; unfold dynamic_steps; now rewrite Hx).
  destruct (sample_n_spec self n seed st Hfn Hd Hr Hnn)
    as (out & st' & tr & Hrun & Htr & Hlen & Hch & _).
  unfold resolved_steps, static_steps, dynamic_steps in Hlen.
  rewrite Hx in Hlen.
  exists out, st'. eexists. exists (fn_calls tr).
  repeat split; [exact Hrun | exact Htr | reflexivity | | exact Hch].
  rewrite Hlen. destruct x; cbn in *; lia.
Qed.

(** The two paths treat a count below zero differently.  A static
    [num_steps] that is zero or negative makes no repetition: the [for]
    loop over [range] is empty and [_sample_n] returns the draw of the base
    distribution after its single call of [distribution_fn]; so does a
    [num_steps] known only on execution that is zero.  A negative
    [num_steps] known only on execution is refused by [tf.range]:
    [_sample_n] raises an invalid-argument error, after the same single
    call and the base draw. *)
Theorem sample_n_nonpositive_steps self n seed st x d0 w :
  _num_steps self = Some x ->
  _distribution_fn self (_sample0 self) (env st) = (d0, w) ->
  dtype d0 = _dtype self ->
  reparameterization_type d0 = _reparameterization_type self ->
  value_in x w <= 0 ->
  let tok := derived_token seed_hash seed "Autoregressive" st in
  (get_static_value x <> None \/ value_in x w = 0 ->
   exists st' tr,
     _sample_n seed_hash self n seed st = (Ok (sample d0 [n] tok), st') /\
     trace st' = trace st ++ tr /\
     fn_calls tr = [(_sample0 self, d0)]) /\
  (get_static_value x = None -> value_in x w < 0 ->
   exists msg st' tr,
     _sample_n seed_hash self n seed st
       = (Raise (InvalidArgumentError msg), st') /\
     trace st' = trace st ++ tr /\
     fn_calls tr = [(_sample0 self, d0)] /\
     sample_calls tr = [(d0, [n], tok)]).
Proof.
  intros Hx Hfn Hd Hr Hle tok. split.
  - intros Hcase.
    assert (Hnn : static_steps self d0 = None ->
                  0 <= dynamic_steps self d0 w).
    { unfold static_steps, dynamic_steps. rewrite Hx. intros Hs.
      destruct Hcase as [Hst | Hz]; [contradiction | lia]. }
    destruct (sample_n_spec self n seed st Hfn Hd Hr Hnn)
      as (out & st' & tr & Hrun & Htr & Hlen & Hch & _).
    fold tok in Htr, Hch.
    unfold resolved_steps, static_steps, dynamic_steps in Hlen.
    rewrite Hx in Hlen.
    assert (Hnil : fn_calls tr = []).
    { apply length_zero_iff_nil. rewrite Hlen. destruct x; cbn in *; lia. }
    rewrite Hnil in Hch. inversion Hch; subst out.
    exists st'. eexists. repeat split; [exact Hrun | exact Htr |].
    cbn [fn_calls]. now rewrite Hnil.
  - intros Hdyn Hneg.
    destruct (sample_n_negative_fold self n seed st Hfn Hd Hr)
      as (msg & st' & Hrun & Htr).
    + unfold static_steps. now rewrite Hx.
    + unfold dynamic_steps. now rewrite Hx.
    + fold tok in Htr.
      exists msg, st', [EvDistributionFn (_sample0 self) d0;
                        EvSeedStream seed "Autoregressive" tok;
                        EvSample d0 [n] tok].
      repeat split; [exact Hrun | exact Htr].
Qed.

(** The outcomes of [_sample_n] are three.  It returns a sample when the
    base distribution passes the consistency check and the count is static
    or not negative.  It raises the [ValueError] of the check exactly when
    the base distribution fails it.  It raises an invalid-argument error
    exactly when the check passes and a count known only on execution is
    negative.  It raises nothing else: the local [num_steps] is never read
    unbound. *)
Theorem sample_n_outcome self n seed st :
  let d := fst (_distribution_fn self (_sample0 self) (env st)) in
  let w := snd (_distribution_fn self (_sample0 self) (env st)) in
  let consistent :=
    dtype d = _dtype self /\
    reparameterization_type d = _reparameterization_type self in
  match fst (_sample_n seed_hash self n seed st) with
  | Ok _ =>
      consistent /\
      (static_steps self d = None -> 0 <= dynamic_steps self d w)
  | Raise (ValueError _) =>
      dtype d <> _dtype self \/
      reparameterization_type d <> _reparameterization_type self
  | Raise (InvalidArgumentError _) =>
      consistent /\
      static_steps self d = None /\ dynamic_steps self d w < 0
  | Raise (UnboundLocalError _) => False
  end.
Proof.
  destruct (_distribution_fn self (_sample0 self) (env st)) as [d w] eqn:Hfn.
  cbn [fst snd].
  destruct (DType_eqb (dtype d) (_dtype self)) eqn:Ed;
    [destruct (ReparameterizationType_eqb (reparameterization_type d)
                 (_reparameterization_type self)) eqn:Er|].
  - apply DType_eqb_eq in Ed. apply ReparameterizationType_eqb_eq in Er.
    destruct (static_steps self d) as [k|] eqn:Hs;
      [|destruct (Z_lt_le_dec (dynamic_steps self d w) 0) as [Hneg|Hnn]].
    + destruct (sample_n_spec self n seed st Hfn Ed Er)
        as (out & st' & tr & Hrun & _); [now rewrite Hs|].
      rewrite Hrun. cbn. repeat split; try assumption. discriminate.
    + destruct (sample_n_negative_fold self n seed st Hfn Ed Er Hs Hneg)
        as (msg & st' & Hrun & _).
      rewrite Hrun. cbn. now repeat split.
    + destruct (sample_n_spec self n seed st Hfn Ed Er (fun _ => Hnn))
        as (out & st' & tr & Hrun & _).
      rewrite Hrun. cbn. now repeat split.
  - apply ReparameterizationType_eqb_neq in Er.
    destruct (get_distribution0_raises self st Hfn (or_intror Er))
      as (msg & Hg).
    unfold _sample_n. rewrite (bind_Raise _ _ Hg). now right.
  - apply DType_eqb_neq in Ed.
    destruct (get_distribution0_raises self st Hfn (or_introl Ed))
      as (msg & Hg).
    unfold _sample_n. rewrite (bind_Raise _ _ Hg). now left.
Qed.

(** *** Only the count matters *)

Lemma for_in_length_only {A B C} (f : A -> M A) (xs : list B) :
  forall (ys : list C), List.length xs = List.length ys ->
  forall s st, for_in xs f s st = for_in ys f s st.
Proof.
  induction xs as [|x xs IH]; intros [|y ys] Hlen s st;
    try discriminate; [reflexivity|].
  cbn [for_in bind Monad_M]. unfold M_bind.
  destruct (f s st) as [[s'|e] st1]; [|reflexivity].
  apply IH. now injection Hlen.
Qed.

Lemma for_in_snoc {A B} (f : A -> M A) (xs : list B) x :
  forall s st, for_in (xs ++ [x]) f s st = bind (for_in xs f s) f st.
Proof.
  induction xs as [|y xs IH]; intros s st.
  - cbn. unfold M_bind. destruct (f s st) as [[s'|e] st1]; reflexivity.
  - cbn [app for_in bind Monad_M]. unfold M_bind at 1 2 3.
    destruct (f s st) as [[s'|e] st1]; [|reflexivity].
    rewrite IH. reflexivity.
Qed.

Lemma get_distribution0_ext self1 self2 st :
  same_except_num_steps self1 self2 ->
  _get_distribution0 self1 st = _get_distribution0 self2 st.
Proof.
  intros (Efn & Es0 & Ed & Er). unfold _get_distribution0.
  now rewrite Efn, Es0, Ed, Er.
Qed.

Lemma recurrence_step_ext self1 self2 tok :
  same_except_num_steps self1 self2 ->
  recurrence_step self1 tok = recurrence_step self2 tok.
Proof.
  intros (Efn & _). unfold recurrence_step, distribution_fn.
  now rewrite Efn.
Qed.

(** Two instances that differ at most in [num_steps] and both resolve to
    the static count [k] behave the same. *)
Lemma sample_n_static_count_only self1 self2 n seed st k :
  same_except_num_steps self1 self2 ->
  (forall d0 w,
     _distribution_fn self1 (_sample0 self1) (env st) = (d0, w) ->
     static_steps self1 d0 = Some k /\ static_steps self2 d0 = Some k) ->
  _sample_n seed_hash self1 n seed st = _sample_n seed_hash self2 n seed st.
Proof.
  intros Hsame Hcount.
  pose proof Hsame as (Efn & Es0 & Ed & Er).
  destruct (_distribution_fn self1 (_sample0 self1) (env st))
    as [d0 w] eqn:Hfn.
  destruct (Hcount d0 w eq_refl) as [Hk1 Hk2].
  assert (Hfn2 : _distribution_fn self2 (_sample0 self2) (env st) = (d0, w))
    by now rewrite <- Efn, <- Es0.
  destruct (DType_eqb (dtype d0) (_dtype self1)) eqn:Bd;
    [destruct (ReparameterizationType_eqb (reparameterization_type d0)
                 (_reparameterization_type self1)) eqn:Br|].
  - apply DType_eqb_eq in Bd. apply ReparameterizationType_eqb_eq in Br.
    rewrite (sample_n_unfold self1 n seed st Hfn Bd Br).
    assert (Bd2 : dtype d0 = _dtype self2) by congruence.
    assert (Br2 : reparameterization_type d0 = _reparameterization_type self2)
      by congruence.
    rewrite (sample_n_unfold self2 n seed st Hfn2 Bd2 Br2).
    rewrite Hk1, Hk2, <- Es0, (recurrence_step_ext _ Hsame). reflexivity.
  - apply ReparameterizationType_eqb_neq in Br.
    destruct (get_distribution0_raises self1 st Hfn (or_intror Br))
      as (msg & Hg).
    pose proof Hg as Hg2. rewrite (get_distribution0_ext st Hsame) in Hg2.
    unfold _sample_n. now rewrite (bind_Raise _ _ Hg), (bind_Raise _ _ Hg2).
  - apply DType_eqb_neq in Bd.
    destruct (get_distribution0_raises self1 st Hfn (or_introl Bd))
      as (msg & Hg).
    pose proof Hg as Hg2. rewrite (get_distribution0_ext st Hsame) in Hg2.
    unfold _sample_n. now rewrite (bind_Raise _ _ Hg), (bind_Raise _ _ Hg2).
Qed.

(** Omitting [num_steps] is the same as giving the static element count of
    the base distribution's event shape: [_sample_n] returns the same
    outcome and leaves the same state. *)
Theorem sample_n_default_is_event_size self1 self2 n seed st m :
  same_except_num_steps self1 self2 ->
  _num_steps self1 = None ->
  _num_steps self2 = Some (ConstantSteps m) ->
  num_elements
    (event_shape (fst (_distribution_fn self1 (_sample0 self1) (env st))))
    = Some m ->
  _sample_n seed_hash self1 n seed st = _sample_n seed_hash self2 n seed st.
Proof.
  intros Hsame H1 H2 Hm.
  apply (@sample_n_static_count_only self1 self2 n seed st m); [exact Hsame|].
  intros d0 w Hfn. rewrite Hfn in Hm. cbn [fst] in Hm.
  unfold static_steps. rewrite H1, H2, Hm. now split.
Qed.

(** One more step is one more application of the recurrence: sampling with
    [k + 1] static steps is sampling with [k] steps followed by
    [distribution_fn(samples).sample(seed=seed)] with the same token. *)
Theorem sample_n_succ_step self1 self2 n seed st k :
  same_except_num_steps self1 self2 ->
  _num_steps self1 = Some (ConstantSteps k) ->
  _num_steps self2 = Some (ConstantSteps (k + 1)) ->
  0 <= k ->
  _sample_n seed_hash self2 n seed st
  = bind (_sample_n seed_hash self1 n seed)
      (recurrence_step self2
         (derived_token seed_hash seed "Autoregressive" st)) st.
Proof.
  intros Hsame H1 H2 Hk.
  pose proof Hsame as (Efn & Es0 & Ed & Er).
  set (tok := derived_token seed_hash seed "Autoregressive" st).
  destruct (_distribution_fn self1 (_sample0 self1) (env st))
    as [d0 w] eqn:Hfn.
  assert (Hfn2 : _distribution_fn self2 (_sample0 self2) (env st) = (d0, w))
    by now rewrite <- Efn, <- Es0.
  assert (Hbind : forall r,
            _sample_n seed_hash self1 n seed st = r ->
            bind (_sample_n seed_hash self1 n seed)
              (recurrence_step self2 tok) st
            = match r with
              | (Ok a, st') => recurrence_step self2 tok a st'
              | (Raise e, st') => (Raise e, st')
              end).
  { intros r <-. reflexivity. }
  destruct (DType_eqb (dtype d0) (_dtype self1)) eqn:Bd;
    [destruct (ReparameterizationType_eqb (reparameterization_type d0)
                 (_reparameterization_type self1)) eqn:Br|].
  - apply DType_eqb_eq in Bd. apply ReparameterizationType_eqb_eq in Br.
    assert (Bd2 : dtype d0 = _dtype self2) by congruence.
    assert (Br2 : reparameterization_type d0 = _reparameterization_type self2)
      by congruence.
    rewrite (Hbind _ (sample_n_unfold self1 n seed st Hfn Bd Br)).
    rewrite (sample_n_unfold self2 n seed st Hfn2 Bd2 Br2).
    unfold static_steps. rewrite H1, H2. cbn [get_static_value].
    fold tok. rewrite <- Es0, (recurrence_step_ext _ Hsame).
    rewrite (for_in_length_only _ (range (k + 1)) (range k ++ [0])).
    + rewrite for_in_snoc. reflexivity.
    + rewrite length_app, !range_length. cbn. lia.
  - apply ReparameterizationType_eqb_neq in Br.
    destruct (get_distribution0_raises self1 st Hfn (or_intror Br))
      as (msg & Hg).
    pose proof Hg as Hg2. rewrite (get_distribution0_ext st Hsame) in Hg2.
    assert (H : _sample_n seed_hash self1 n seed st
                = (Raise (ValueError msg),
                   after_fn_call st (_sample0 self1) d0 w))
      by (unfold _sample_n; now rewrite (bind_Raise _ _ Hg)).
    rewrite (Hbind _ H). unfold _sample_n. now rewrite (bind_Raise _ _ Hg2).
  - apply DType_eqb_neq in Bd.
    destruct (get_distribution0_raises self1 st Hfn (or_introl Bd))
      as (msg & Hg).
    pose proof Hg as Hg2. rewrite (get_distribution0_ext st Hsame) in Hg2.
    assert (H : _sample_n seed_hash self1 n seed st
                = (Raise (ValueError msg),
                   after_fn_call st (_sample0 self1) d0 w))
      by (unfold _sample_n; now rewrite (bind_Raise _ _ Hg)).
    rewrite (Hbind _ H). unfold _sample_n. now rewrite (bind_Raise _ _ Hg2).
Qed.

End Properties.

(** ** The theorems at the concrete instance *)

Lemma sample_n_static_invocations_witness :
  1 <= 2 /\
  exists out st' tr rest,
    _sample_n Demo.hash (Demo.ar (Some (ConstantSteps 2)) false) 6 (Some 42)
      Demo.st0 = (Ok out, st') /\
    trace st' = (trace Demo.st0 ++ tr)%list /\
    fn_calls tr = (Some 0, fst (Demo.fn (Some 0) 0)) :: rest /\
    Z.of_nat (List.length (fn_calls tr)) = 2 + 1 /\
    Z.of_nat (List.length rest) = 2 /\
    Chain 56 57 rest out.
Proof.
  split; [lia|].
  apply (@sample_n_static_invocations Z Z Demo.hash
           (Demo.ar (Some (ConstantSteps 2)) false) 6 (Some 42) Demo.st0 2
           (fst (Demo.fn (Some 0) 0)) 1);
    [reflexivity | lia | reflexivity | reflexivity | reflexivity].
Defined.

Lemma sample_n_default_steps_witness :
  (num_elements (event_shape (fst (Demo.fn (Some 0) 0))) = Some 2 /\
   exists out st' (tr : list (Event Z)),
     _sample_n Demo.hash (Demo.ar None false) 6 (Some 42) Demo.st0
       = (Ok out, st') /\
     List.length (fn_calls tr) = 2%nat /\
     Chain 56 57 (fn_calls tr) out) /\
  (num_elements (event_shape (fst (Demo.fn_dyn (Some 0) 0))) = None /\
   0 <= reduce_prod (event_shape_tensor (fst (Demo.fn_dyn (Some 0) 0))) /\
   exists out st' (tr : list (Event Z)),
     _sample_n Demo.hash Demo.ar_dyn 6 (Some 42) Demo.st0 = (Ok out, st') /\
     Z.of_nat (List.length (fn_calls tr)) = 3 /\
     Chain 56 57 (fn_calls tr) out) /\
  (num_elements (event_shape (fst (Demo.fn_big (Some 0) 0))) = None /\
   reduce_prod (event_shape_tensor (fst (Demo.fn_big (Some 0) 0))) < 0 /\
   exists msg st',
     _sample_n Demo.hash Demo.ar_big 6 (Some 42) Demo.st0
       = (Raise (InvalidArgumentError msg), st')).
Proof.
  split; [|split].
  - split; [reflexivity|].
    destruct (@sample_n_default_steps Z Z Demo.hash (Demo.ar None false) 6
                (Some 42) Demo.st0 (fst (Demo.fn (Some 0) 0)) 1
                eq_refl eq_refl eq_refl eq_refl) as [Hstatic _].
    destruct (Hstatic 2 eq_refl)
      as (_ & out & st' & tr & Hrun & _ & Hlen & Hch).
    exists out, st', tr. repeat split; assumption.
  - split; [reflexivity|]. split; [vm_compute; discriminate|].
    destruct (@sample_n_default_steps Z Z Demo.hash Demo.ar_dyn 6
                (Some 42) Demo.st0 (fst (Demo.fn_dyn (Some 0) 0)) 1
                eq_refl eq_refl eq_refl eq_refl) as [_ Hdynamic].
    destruct (Hdynamic eq_refl) as (_ & _ & Hfold & _).
    destruct Hfold
      as (elems & _ & _ & _ & out & st' & tr & Hrun & _ & Hlen & Hch);
      [vm_compute; discriminate|].
    exists out, st', tr. repeat split; assumption.
  - split; [reflexivity|]. split; [reflexivity|].
    destruct (@sample_n_default_steps Z Z Demo.hash Demo.ar_big 6
                (Some 42) Demo.st0 (fst (Demo.fn_big (Some 0) 0)) 1
                eq_refl eq_refl eq_refl eq_refl) as [_ Hdynamic].
    destruct (Hdynamic eq_refl) as (_ & _ & _ & Hneg).
    destruct (Hneg eq_refl) as (msg & Hrun).
    exists msg. eexists. exact Hrun.
Defined.

(** The event shape of 46341 x 46341 entries has 2147488281 elements; the
    [int32] product is -2147479015, and [_sample_n] does not fold over that
    many steps: it raises, with the base distribution materialized and
    drawn from and no repetition made. *)
Lemma sample_n_default_steps_overflow :
  num_elements (event_shape (fst (Demo.fn_big (Some 0) 0))) = None /\
  product (event_shape_tensor (fst (Demo.fn_big (Some 0) 0))) = 2147488281 /\
  reduce_prod (event_shape_tensor (fst (Demo.fn_big (Some 0) 0)))
    = -2147479015 /\
  (exists msg,
     fst (_sample_n Demo.hash Demo.ar_big 6 (Some 42) Demo.st0)
       = Raise (InvalidArgumentError msg)) /\
  map fst (fn_calls (trace (snd
    (_sample_n Demo.hash Demo.ar_big 6 (Some 42) Demo.st0)))) = [Some 0].
Proof.
  repeat split; try reflexivity.
  eexists. vm_compute. reflexivity.
Qed.

Lemma sample_n_single_token_witness :
  exists r st' tr rest,
    _sample_n Demo.hash (Demo.ar (Some (ConstantSteps 2)) false) 6 (Some 42)
      Demo.st0 = (r, st') /\
    trace st' = (trace Demo.st0 ++ tr)%list /\
    seed_calls tr = [(Some 42, "Autoregressive", 56)] /\
    (forall s, Some 42 = Some s -> 56 = Demo.hash s "Autoregressive") /\
    fn_calls tr = (Some 0, fst (Demo.fn (Some 0) 0)) :: rest /\
    sample_calls tr
      = (fst (Demo.fn (Some 0) 0), [6], 56) :: recurrence_samples 56 rest /\
    Forall (fun c => snd c = 56) (sample_calls tr) /\
    (exists out, r = Ok out) /\
    List.length rest = 2%nat.
Proof.
  destruct (@sample_n_single_token Z Z Demo.hash
              (Demo.ar (Some (ConstantSteps 2)) false) 6 (Some 42) Demo.st0
              (fst (Demo.fn (Some 0) 0)) 1 eq_refl eq_refl eq_refl)
    as (r & st' & tr & rest & Hrun & Htr & Hsd & Htok & Hfn & Hsm & Hall
        & Hok & _).
  exists r, st', tr, rest.
  destruct Hok as [Hout Hlen]; [discriminate|].
  repeat split; assumption.
Defined.

Lemma inconsistent_base_raises_witness :
  exists msg previously now,
    _sample_n Demo.hash (Demo.ar (Some (ConstantSteps 2)) false) 6 (Some 42)
      Demo.st_late
      = (Raise (ValueError msg),
         after_fn_call Demo.st_late (Some 0) (fst (Demo.fn (Some 0) 10)) 11) /\
    mentions msg previously /\ mentions msg now /\ previously <> now.
Proof.
  destruct (@inconsistent_base_raises Z Z Demo.hash
              (Demo.ar (Some (ConstantSteps 2)) false) 6 (Some 42)
              Demo.st_late (fst (Demo.fn (Some 0) 10)) 11 eq_refl)
    as (msg & previously & now & Hs & _ & _ & Hp & Hn & Hne & _).
  - left. discriminate.
  - exists msg, previously, now. repeat split; assumption.
Defined.

Lemma density_skips_consistency_check_witness :
  dtype (fst (Demo.fn (Some 0) 10)) <> _dtype (Demo.ar None false) /\
  _log_prob (Demo.ar None false) 0 Demo.st_late
    = (Ok 0, after_fn_call Demo.st_late (Some 0) (fst (Demo.fn (Some 0) 10)) 11)
  /\
  _prob (Demo.ar None false) 0 Demo.st_late
    = (Ok 0, after_fn_call Demo.st_late (Some 0) (fst (Demo.fn (Some 0) 10)) 11)
  /\
  (_sample0 (Demo.ar None false) = Some 0 ->
   exists msg,
     _get_distribution0 (Demo.ar None false) Demo.st_late
       = (Raise (ValueError msg),
          after_fn_call Demo.st_late (Some 0) (fst (Demo.fn (Some 0) 10)) 11)).
Proof.
  split; [discriminate|].
  apply (@density_skips_consistency_check Z Z (Demo.ar None false) 0
           Demo.st_late (fst (Demo.fn (Some 0) 10)) 11 eq_refl).
  left. discriminate.
Defined.


Lemma sample_n_zero_steps_witness :
  (forall is_init,
     _parameter_control_dependencies (Demo.ar (Some (ConstantSteps 0)) false)
       is_init = []) /\
  exists st' tr,
    _sample_n Demo.hash (Demo.ar (Some (ConstantSteps 0)) false) 6 (Some 42)
      Demo.st0 = (Ok 57, st') /\
    trace st' = (trace Demo.st0 ++ tr)%list /\
    fn_calls tr = [(Some 0, fst (Demo.fn (Some 0) 0))] /\
    sample_calls tr = [(fst (Demo.fn (Some 0) 0), [6], 56)].
Proof.
  apply (@sample_n_zero_steps Z Z Demo.hash Demo.fn (Some 0) true
           "Autoregressive" Demo.st0
           (Demo.ar (Some (ConstantSteps 0)) false)
           (after_fn_call Demo.st0 (Some 0) (fst (Demo.fn (Some 0) 0)) 1)
           6 (Some 42) Demo.st0 (fst (Demo.fn (Some 0) 0)) 1);
    reflexivity.
Defined.

(** ** Construction without validation: the check is not made *)

(** C3.  The code at the failing input.  With [validate_args=False], the
    default, construction with the static [num_steps = 0], and with
    [num_steps = -1], does not fail: after its call of [distribution_fn]
    the constructor returns the object, where the claim, like the
    docstring of [__init__], has an error raised.  (With [num_steps = 1]
    it returns the object too.) *)
Theorem init_unvalidated_accepts_nonpositive :
  __init__ Demo.fn (Some 0) (Some (ConstantSteps 0)) false true
    "Autoregressive" Demo.st0
    = (Ok (Demo.ar (Some (ConstantSteps 0)) false),
       after_fn_call Demo.st0 (Some 0) (fst (Demo.fn (Some 0) 0)) 1) /\
  __init__ Demo.fn (Some 0) (Some (ConstantSteps (-1))) false true
    "Autoregressive" Demo.st0
    = (Ok (Demo.ar (Some (ConstantSteps (-1))) false),
       after_fn_call Demo.st0 (Some 0) (fst (Demo.fn (Some 0) 0)) 1) /\
  __init__ Demo.fn (Some 0) (Some (ConstantSteps 1)) false true
    "Autoregressive" Demo.st0
    = (Ok (Demo.ar (Some (ConstantSteps 1)) false),
       after_fn_call Demo.st0 (Some 0) (fst (Demo.fn (Some 0) 0)) 1).
Proof. repeat split. Qed.

(** ** A remark on the model *)

(** The same density call that succeeds in the late state is refused by the
    materialization of the base distribution in that state. *)
Example late_materialization_refused :
  fst (_get_distribution0 (Demo.ar None false) Demo.st_late)
  = Raise (ValueError
      "`distribution_fn` returned distributions with different dtype -- previously <dtype: 'float32'> and now <dtype: 'float64'>").
Proof. reflexivity. Qed.

(** ** The further theorems at the concrete instance *)


Lemma consistent_fn_never_refused_witness :
  __init__ Demo.fn_dyn (Some 0) None false true "Autoregressive" Demo.st0
    = (Ok Demo.ar_dyn,
       after_fn_call Demo.st0 (Some 0) (fst (Demo.fn_dyn (Some 0) 0)) 1) /\
  _get_distribution0 Demo.ar_dyn Demo.st_late
    = (Ok (fst (Demo.fn_dyn (Some 0) 10)),
       after_fn_call Demo.st_late (Some 0) (fst (Demo.fn_dyn (Some 0) 10)) 11)
  /\
  forall msg,
    fst (_sample_n Demo.hash Demo.ar_dyn 6 (Some 42) Demo.st_late)
      <> Raise (ValueError msg).
Proof.
  split; [reflexivity|].
  apply (@consistent_fn_never_refused Z Z Demo.hash Demo.fn_dyn (Some 0) None
           false true "Autoregressive" Demo.st0 Demo.ar_dyn
           (after_fn_call Demo.st0 (Some 0) (fst (Demo.fn_dyn (Some 0) 0)) 1)
           eq_refl).
  intros w1 w2. split; reflexivity.
Defined.

Lemma num_steps_property_witness :
  num_steps (Demo.ar (Some (ConstantSteps 2)) false) Demo.st0
    = (Ok (ConstantSteps 2), Demo.st0) /\
  num_steps (Demo.ar None false) Demo.st0
    = (Ok (ConstantSteps 2),
       after_fn_call Demo.st0 (Some 0) (fst (Demo.fn (Some 0) 0)) 1) /\
  (exists msg,
     num_steps (Demo.ar None false) Demo.st_late
       = (Raise (ValueError msg),
          after_fn_call Demo.st_late (Some 0) (fst (Demo.fn (Some 0) 10)) 11)).
Proof.
  split; [|split].
  - apply (proj1 (@num_steps_property Z Z
                    (Demo.ar (Some (ConstantSteps 2)) false))).
    reflexivity.
  - apply (proj1 (proj2 (@num_steps_property Z Z (Demo.ar None false))
                    Demo.st0 (fst (Demo.fn (Some 0) 0)) 1 eq_refl eq_refl));
      reflexivity.
  - apply (proj2 (proj2 (@num_steps_property Z Z (Demo.ar None false))
                    Demo.st_late (fst (Demo.fn (Some 0) 10)) 11
                    eq_refl eq_refl)).
    left. discriminate.
Defined.

Lemma num_steps_property_is_sample_count_witness :
  exists x st1,
    num_steps Demo.ar_dyn Demo.st0 = (Ok x, st1) /\
    (0 <= value_in x 1 ->
     exists out st' tr rest,
       _sample_n Demo.hash Demo.ar_dyn 6 (Some 42) Demo.st0 = (Ok out, st') /\
       trace st' = (trace Demo.st0 ++ tr)%list /\
       fn_calls tr = (Some 0, fst (Demo.fn_dyn (Some 0) 0)) :: rest /\
       Z.of_nat (List.length rest) = value_in x 1).
Proof.
  apply (@num_steps_property_is_sample_count Z Z Demo.hash Demo.ar_dyn 6
           (Some 42) Demo.st0 (fst (Demo.fn_dyn (Some 0) 0)) 1);
    reflexivity.
Defined.

Lemma sample_n_given_steps_witness :
  0 <= 2 /\
  exists out st' tr rest,
    _sample_n Demo.hash
      (Demo.ar (Some (VariableSteps (fun w => w + 1))) false) 6 (Some 42)
      Demo.st0 = (Ok out, st') /\
    trace st' = (trace Demo.st0 ++ tr)%list /\
    fn_calls tr = (Some 0, fst (Demo.fn (Some 0) 0)) :: rest /\
    Z.of_nat (List.length rest) = 2 /\
    Chain 56 57 rest out.
Proof.
  split; [lia|].
  apply (@sample_n_given_steps Z Z Demo.hash
           (Demo.ar (Some (VariableSteps (fun w => w + 1))) false) 6
           (Some 42) Demo.st0 (VariableSteps (fun w => w + 1))
           (fst (Demo.fn (Some 0) 0)) 1);
    [reflexivity | reflexivity | reflexivity | reflexivity | cbn; lia].
Defined.

Lemma sample_n_nonpositive_steps_witness :
  (exists st' tr,
     _sample_n Demo.hash (Demo.ar (Some (ConstantSteps (-3))) false) 6
       (Some 42) Demo.st0 = (Ok 57, st') /\
     trace st' = (trace Demo.st0 ++ tr)%list /\
     fn_calls tr = [(Some 0, fst (Demo.fn (Some 0) 0))]) /\
  (exists msg st' tr,
     _sample_n Demo.hash
       (Demo.ar (Some (DeferredSteps (fun _ => -3))) false) 6
       (Some 42) Demo.st0 = (Raise (InvalidArgumentError msg), st') /\
     trace st' = (trace Demo.st0 ++ tr)%list /\
     fn_calls tr = [(Some 0, fst (Demo.fn (Some 0) 0))] /\
     sample_calls tr = [(fst (Demo.fn (Some 0) 0), [6], 56)]).
Proof.
  split.
  - apply (proj1 (@sample_n_nonpositive_steps Z Z Demo.hash
             (Demo.ar (Some (ConstantSteps (-3))) false) 6 (Some 42) Demo.st0
             (ConstantSteps (-3)) (fst (Demo.fn (Some 0) 0)) 1
             eq_refl eq_refl eq_refl eq_refl ltac:(cbn; lia))).
    left. discriminate.
  - apply (proj2 (@sample_n_nonpositive_steps Z Z Demo.hash
             (Demo.ar (Some (DeferredSteps (fun _ => -3))) false) 6 (Some 42)
             Demo.st0 (DeferredSteps (fun _ => -3))
             (fst (Demo.fn (Some 0) 0)) 1
             eq_refl eq_refl eq_refl eq_refl ltac:(cbn; lia)));
      [reflexivity | cbn; lia].
Defined.

Lemma sample_n_default_is_event_size_witness :
  _sample_n Demo.hash (Demo.ar None false) 6 (Some 42) Demo.st0
  = _sample_n Demo.hash (Demo.ar (Some (ConstantSteps 2)) false) 6 (Some 42)
      Demo.st0.
Proof.
  apply (@sample_n_default_is_event_size Z Z Demo.hash (Demo.ar None false)
           (Demo.ar (Some (ConstantSteps 2)) false) 6 (Some 42) Demo.st0 2);
    [repeat split | reflexivity | reflexivity | reflexivity].
Defined.

Lemma sample_n_succ_step_witness :
  0 <= 1 /\
  _sample_n Demo.hash (Demo.ar (Some (ConstantSteps 2)) false) 6 (Some 42)
    Demo.st0
  = bind (_sample_n Demo.hash (Demo.ar (Some (ConstantSteps 1)) false) 6
            (Some 42))
      (recurrence_step (Demo.ar (Some (ConstantSteps 2)) false) 56) Demo.st0.
Proof.
  split; [lia|].
  apply (@sample_n_succ_step Z Z Demo.hash
           (Demo.ar (Some (ConstantSteps 1)) false)
           (Demo.ar (Some (ConstantSteps 2)) false) 6 (Some 42) Demo.st0 1);
    [repeat split | reflexivity | reflexivity | lia].
Defined.

(** A variable [num_steps] is read after the materialization: in the world
    of [Demo.st0] the variable [w + 1] holds 1, yet two repetitions are
    made, because [Demo.fn] has incremented [w] by then. *)
Example variable_read_after_materialization :
  map fst (fn_calls (trace (snd
    (_sample_n Demo.hash
       (Demo.ar (Some (VariableSteps (fun w => w + 1))) false) 6 (Some 42)
       Demo.st0))))
  = [Some 0; Some 57; Some 113].
Proof. vm_compute. reflexivity. Qed.
